(** * The raw e-mail forwarder of its-incident-app (_sample/main.py)

    A shallow embedding of [RawEmailForwarder] and [lambda_handler], and the
    properties the specification states about them.

    The Python code talks to three things outside the file: the process
    environment ([os.environ]), the object store (boto3's S3 client) and the
    HTTP endpoint (through [urllib.request.urlopen]).  They are gathered in a
    [world]; every call to one of them is recorded, in program order, in a
    trace of [effect]s, together with every line written by [print].
    Exceptions are modelled by a small state-and-exception monad over that
    trace.

    The report script of the repository (python/scirpt.py) is embedded in
    the module [Scirpt], further down. *)

From Stdlib Require Import ZArith Strings.Byte Strings.Ascii.
From stdpp Require Import base option list strings gmap pretty sorting.

Open Scope string_scope.
Open Scope list_scope.
Open Scope Z_scope.

Set Warnings "-register-all".

(** ** Python values *)

(** The JSON-shaped values a Lambda event is made of (numbers are taken to
    be integers).  A [dict] is kept as an association list in insertion
    order (its keys are distinct). *)
Inductive pyval :=
| PNone
| PBool (b : bool)
| PInt (n : Z)
| PStr (s : string)
| PList (items : list pyval)
| PDict (entries : list (string * pyval)).

(** [type(v).__name__], as it appears in the interpreter's error messages. *)
Definition py_type_name (v : pyval) : string :=
  match v with
  | PNone => "NoneType"
  | PBool _ => "bool"
  | PInt _ => "int"
  | PStr _ => "str"
  | PList _ => "list"
  | PDict _ => "dict"
  end.

(** Truth value of an object, as tested by [if message_id:]. *)
Definition py_truthy (v : pyval) : bool :=
  match v with
  | PNone => false
  | PBool b => b
  | PInt n => negb (Z.eqb n 0)
  | PStr s => negb (String.eqb s "")
  | PList items => match items with [] => false | _ => true end
  | PDict entries => match entries with [] => false | _ => true end
  end.

(** Lookup of a key in the entries of a dict. *)
Fixpoint dict_lookup (k : string) (entries : list (string * pyval)) : option pyval :=
  match entries with
  | [] => None
  | (k', v) :: rest => if String.eqb k k' then Some v else dict_lookup k rest
  end.

(** [obj.get(key, fallback)] on an object that has the method, that is, on
    a dict; [None] stands for an object without it. *)
Definition dict_get (obj : pyval) (key : string) (fallback : pyval) : option pyval :=
  match obj with
  | PDict entries => Some (default fallback (dict_lookup key entries))
  | _ => None
  end.

(** ** Exceptions *)

(** The exception classes that can arise while the module runs.  [HTTPError]
    is, in Python, a subclass of [URLError]; it is kept apart here because
    the specification separates the two conditions. *)
Inductive exn :=
| KeyError (key : string)
| AttributeError (msg : string)
| TypeError (msg : string)
| ClientError (code msg : string)
| EndpointConnectionError (msg : string)
| URLError (reason : string)
| TimeoutError (msg : string)
| HTTPError (code : Z) (msg : string)
| UnicodeEncodeError (msg : string)
| ValueError (msg : string).

(** [str(e)]. *)
Definition exn_str (e : exn) : string :=
  match e with
  | KeyError key => "'" +:+ key +:+ "'"
  | AttributeError msg => msg
  | TypeError msg => msg
  | ClientError code msg =>
      "An error occurred (" +:+ code +:+ ") when calling the GetObject operation: " +:+ msg
  | EndpointConnectionError msg => msg
  | URLError reason => "<urlopen error " +:+ reason +:+ ">"
  | TimeoutError msg => msg
  | HTTPError code msg => "HTTP Error " +:+ pretty code +:+ ": " +:+ msg
  | UnicodeEncodeError msg => msg
  | ValueError msg => msg
  end.

(** The specification's names for the two fatal conditions: whatever the
    storage client raises is its [StorageFetchError], a failed connection or
    an elapsed timeout of the HTTP call is its [NetworkError]. *)
Definition StorageFetchError (e : exn) : bool :=
  match e with
  | ClientError _ _ | EndpointConnectionError _ => true
  | _ => false
  end.

Definition NetworkError (e : exn) : bool :=
  match e with
  | URLError _ | TimeoutError _ => true
  | _ => false
  end.

(** ** Header values, as http.client writes them *)

(** A Python string is kept as its UTF-8 bytes.  Its code points: *)
Definition utf8_step (st : N * N * list N) (b : N) : N * N * list N :=
  let '(pending, acc, out) := st in
  if (pending =? 0)%N then
    if (b <? 128)%N then (0, 0, b :: out)%N
    else if (b <? 224)%N then (1, b - 192, out)%N
    else if (b <? 240)%N then (2, b - 224, out)%N
    else (3, b - 240, out)%N
  else
    let acc := (acc * 64 + (b - 128))%N in
    if (pending =? 1)%N then (0, 0, acc :: out)%N else ((pending - 1)%N, acc, out).

Definition code_points (s : string) : list N :=
  reverse (foldl utf8_step (0, 0, [])%N (N_of_ascii <$> String.list_ascii_of_string s)).2.

(** Lower-case hexadecimal, on [width] digits. *)
Definition hex_digit (n : N) : ascii :=
  ascii_of_N (if (n <? 10)%N then 48 + n else 87 + n).

Fixpoint hex (width : nat) (n : N) : string :=
  match width with
  | O => ""
  | S width => hex width (n / 16) +:+ String (hex_digit (n mod 16)) ""
  end.

Fixpoint take_while {A} (f : A → bool) (l : list A) : list A :=
  match l with
  | [] => []
  | x :: l => if f x then x :: take_while f l else []
  end.

Fixpoint drop_while {A} (f : A → bool) (l : list A) : list A :=
  match l with
  | [] => []
  | x :: rest => if f x then drop_while f rest else l
  end.

(** [str(e)] for the error of [value.encode('latin-1')]: it names the first
    run of characters above U+00FF. *)
Definition latin1_encode_error (cps : list N) : option string :=
  let encodable cp := bool_decide (cp < 256)%N in
  let start := length (take_while encodable cps) in
  let run := take_while (λ cp, negb (encodable cp)) (drop_while encodable cps) in
  match run with
  | [] => None
  | [cp] =>
      Some ("'latin-1' codec can't encode character '"
            +:+ (if (cp <? 65536)%N then "\u" +:+ hex 4 cp else "\U" +:+ hex 8 cp)
            +:+ "' in position " +:+ pretty start
            +:+ ": ordinal not in range(256)")
  | _ =>
      Some ("'latin-1' codec can't encode characters in position "
            +:+ pretty start +:+ "-" +:+ pretty (start + length run - 1)%nat
            +:+ ": ordinal not in range(256)")
  end.

(** [repr] of a bytes object. *)
Definition bytes_repr (bytes : list N) : string :=
  let quote : N :=
    if bool_decide (39%N ∈ bytes) && negb (bool_decide (34%N ∈ bytes)) then 34%N
    else 39%N in
  let escape (c : N) : string :=
    if (c =? quote)%N || (c =? 92)%N then String "\" (String (ascii_of_N c) "")
    else if (c =? 9)%N then "\t"
    else if (c =? 10)%N then "\n"
    else if (c =? 13)%N then "\r"
    else if (c <? 32)%N || (127 <=? c)%N then "\x" +:+ hex 2 c
    else String (ascii_of_N c) "" in
  "b" +:+ String (ascii_of_N quote) ""
      +:+ String.concat "" (escape <$> bytes)
      +:+ String (ascii_of_N quote) "".

(** The test of http.client on an encoded value: a line feed that is not
    followed by a space or a tab, or a carriage return that is not followed
    by a space, a tab or a line feed. *)
Fixpoint illegal_header_value (bytes : list N) : bool :=
  match bytes with
  | [] => false
  | c :: rest =>
      let next_is (allowed : list N) :=
        match rest with
        | [] => false
        | d :: _ => bool_decide (d ∈ allowed)
        end in
      ((c =? 10)%N && negb (next_is [32; 9]%N))
      || ((c =? 13)%N && negb (next_is [32; 9; 10]%N))
      || illegal_header_value rest
  end.

(** What [putheader] does with a header value: a string is encoded as
    latin-1 and tested, a number is written in decimal, and any other
    object fails the test itself.  [None]: the header is written. *)
Definition header_value_error (value : pyval) : option exn :=
  match value with
  | PStr s =>
      match latin1_encode_error (code_points s) with
      | Some msg => Some (UnicodeEncodeError msg)
      | None =>
          if illegal_header_value (code_points s)
          then Some (ValueError ("Invalid header value " +:+ bytes_repr (code_points s)))
          else None
      end
  | PInt _ | PBool _ => None
  | _ => Some (TypeError ("expected string or bytes-like object, got '"
                          +:+ py_type_name value +:+ "'"))
  end.

Arguments header_value_error : simpl never.

(** ** Requests, events and the world *)

(** The arguments of [urllib.request.Request(url=, data=, method=, headers=)],
    as the program gives them.  The configured URL is taken to be one that
    [Request] accepts.  (On the wire urllib writes a header name with only
    its first letter in upper case; header names do not depend on case.) *)
Record Request := {
  url : string;
  data : list byte;
  method : string;
  headers : list (string * pyval);
}.

(** What the program does to the outside, one entry per call: creating the
    client, reading an environment variable, asking the store for an object,
    calling [urlopen] on a request, printing a line. *)
Inductive effect :=
| Boto3Client (service : string)
| EnvRead (name : string)
| GetObject (Bucket Key : string)
| Urlopen (req : Request) (timeout : Z)
| Printed (line : string).

(** What [get_object(...)] followed by [response["Body"].read()] yields. *)
Inductive s3_outcome :=
| S3Object (body : list byte)
| S3ClientError (code msg : string)
| S3Unreachable (msg : string).

(** What the endpoint does with a request: no connection, no answer within
    the timeout (while sending, or while waiting for the response), or a
    final response with a status code and reason phrase. *)
Inductive http_outcome :=
| ConnectionFailed (reason : string)
| SendTimedOut
| ResponseTimedOut
| Responded (status : Z) (reason : string).

(** Everything outside the file.  The store and the endpoint may answer
    according to all that happened before (the trace so far).
    [py_str] is the interpreter's [str()] on objects that are not strings;
    the program only reaches it when an event carries a message id that is
    not a string. *)
Record world := {
  environ : gmap string string;
  s3_get_object : list effect → string → string → s3_outcome;
  http_endpoint : list effect → Request → Z → http_outcome;
  py_str : pyval → string;
}.

(** ** The monad: a trace of events, and a result or a raised exception *)

Inductive result (A : Type) :=
| Return (a : A)
| Raise (e : exn).
Arguments Return {A} a.
Arguments Raise {A} e.

Definition M (A : Type) : Type := list effect → result A * list effect.

#[global] Instance M_ret : MRet M := λ A a tr, (Return a, tr).

#[global] Instance M_bind : MBind M := λ A B k m tr,
  match m tr with
  | (Return a, tr') => k a tr'
  | (Raise e, tr') => (Raise e, tr')
  end.

Definition raise {A} (e : exn) : M A := λ tr, (Raise e, tr).

(** [try: body  except Exception as e: handler e]. *)
Definition try_except {A} (body : M A) (handler : exn → M A) : M A := λ tr,
  match body tr with
  | (Return a, tr') => (Return a, tr')
  | (Raise e, tr') => handler e tr'
  end.

Definition emit (ev : effect) : M unit := λ tr, (Return (), tr ++ [ev]).

Definition history : M (list effect) := λ tr, (Return tr, tr).

(** [for x in items: body x]. *)
Fixpoint for_each {A} (items : list A) (body : A → M unit) : M unit :=
  match items with
  | [] => mret ()
  | x :: rest => body x;; for_each rest body
  end.

(** [print(line)]. *)
Definition print (line : string) : M unit := emit (Printed line).

(** ** The interpreter and the libraries *)

Section Program.

Variable w : world.

(** [f"{v}"]: a string is inserted as it is. *)
Definition fstring (v : pyval) : string :=
  match v with
  | PStr s => s
  | _ => py_str w v
  end.

(** [obj.get(key, default)]: only a dict has the method. *)
Definition py_get (obj : pyval) (key : string) (fallback : pyval) : M pyval :=
  match dict_get obj key fallback with
  | Some v => mret v
  | None => raise (AttributeError
                     ("'" +:+ py_type_name obj +:+ "' object has no attribute 'get'"))
  end.

(** The items a [for] loop draws from an object: the elements of a list,
    the keys of a dict, the characters of a string; other objects are not
    iterable. *)
Fixpoint str_chars (s : string) : list pyval :=
  match s with
  | EmptyString => []
  | String c rest => PStr (String c EmptyString) :: str_chars rest
  end.

Definition py_iter (obj : pyval) : M (list pyval) :=
  match obj with
  | PList items => mret items
  | PDict entries => mret (PStr <$> entries.*1)
  | PStr s => mret (str_chars s)
  | _ => raise (TypeError ("'" +:+ py_type_name obj +:+ "' object is not iterable"))
  end.

(** [os.environ[name]]. *)
Definition os_environ_getitem (name : string) : M string :=
  emit (EnvRead name);;
  match environ w !! name with
  | Some value => mret value
  | None => raise (KeyError name)
  end.

(** [boto3.client(service)]: a handle on the service; creating it is taken
    to succeed. *)
Record S3Client := { service_name : string }.

Definition boto3_client (service : string) : M S3Client :=
  emit (Boto3Client service);;
  mret {| service_name := service |}.

(** [client.get_object(Bucket=, Key=)], and [response["Body"].read()] on
    what it returns.  The store decides the outcome; a service error
    (missing key, denied access, ...) is botocore's [ClientError], an
    unreachable store its [EndpointConnectionError]. *)
Record GetObjectOutput := { Body : list byte }.

Definition get_object (client : S3Client) (Bucket Key : string) : M GetObjectOutput :=
  tr ← history;
  emit (GetObject Bucket Key);;
  match s3_get_object w tr Bucket Key with
  | S3Object body => mret {| Body := body |}
  | S3ClientError code msg => raise (ClientError code msg)
  | S3Unreachable msg => raise (EndpointConnectionError msg)
  end.

Definition Body_read (response : GetObjectOutput) : list byte := Body response.

(** What [putheader] raises on the first header of the request whose value
    it refuses. *)
Fixpoint first_header_error (entries : list (string * pyval)) : option exn :=
  match entries with
  | [] => None
  | (_, value) :: rest =>
      match header_value_error value with
      | Some e => Some e
      | None => first_header_error rest
      end
  end.

Definition putheader_error (req : Request) : option exn :=
  first_header_error (headers req).

(** [urllib.request.urlopen(req, timeout=)].  http.client writes the
    headers before it connects, and what [putheader] raises for a value it
    cannot write leaves [urlopen] as it is: nothing is sent then, whatever
    the endpoint would have done.  Otherwise the standard opener wraps a
    failure to connect or to send in [URLError] and lets a timeout while
    waiting for the response through as it is; its [HTTPErrorProcessor]
    hands back a response only when [200 <= code < 300] and raises
    [HTTPError] for every other final status. *)
Record HTTPResponse := { status : Z }.

Definition urlopen (req : Request) (timeout : Z) : M HTTPResponse :=
  tr ← history;
  emit (Urlopen req timeout);;
  match putheader_error req with
  | Some e => raise e
  | None =>
      match http_endpoint w tr req timeout with
      | ConnectionFailed reason => raise (URLError reason)
      | SendTimedOut => raise (URLError "timed out")
      | ResponseTimedOut => raise (TimeoutError "timed out")
      | Responded code reason =>
          if (200 <=? code) && (code <? 300) then mret {| status := code |}
          else raise (HTTPError code reason)
      end
  end.

(** ** main.py *)

Record RawEmailForwarder := {
  s3_client : S3Client;
  api_endpoint : string;
  bucket_name : string;
}.

(** [RawEmailForwarder.__init__]. *)
Definition RawEmailForwarder_init : M RawEmailForwarder :=
  s3_client ← boto3_client "s3";
  api_endpoint ← os_environ_getitem "API_ENDPOINT";
  bucket_name ← os_environ_getitem "S3_BUCKET_NAME";
  mret {| s3_client := s3_client;
          api_endpoint := api_endpoint;
          bucket_name := bucket_name |}.

(** [RawEmailForwarder.forward_email]. *)
Definition forward_email (self : RawEmailForwarder) (message_id : pyval) : M unit :=
  try_except
    (response ← get_object (s3_client self) (bucket_name self) (fstring message_id);
     let data := Body_read response in
     let req := {| url := api_endpoint self;
                   data := data;
                   method := "POST";
                   headers := [("X-Message-ID", message_id)] |} in
     response ← urlopen req 300;
     if negb (status response =? 200)
     then print ("API error status code: " +:+ pretty (status response))
     else mret ())
    (λ e,
       print ("Error processing message " +:+ fstring message_id +:+ ": " +:+ exn_str e);;
       raise e).

(** The body of the loop of [lambda_handler]. *)
Definition handle_record (forwarder : RawEmailForwarder) (record : pyval) : M unit :=
  ses ← py_get record "ses" (PDict []);
  mail ← py_get ses "mail" (PDict []);
  message_id ← py_get mail "messageId" PNone;
  if py_truthy message_id then forward_email forwarder message_id else mret ().

(** [lambda_handler]. *)
Definition lambda_handler (event context : pyval) : M pyval :=
  forwarder ← RawEmailForwarder_init;
  records ← py_get event "Records" (PList []);
  items ← py_iter records;
  for_each items (handle_record forwarder);;
  mret (PDict [("statusCode", PInt 200)]).

End Program.


(** ** What a record carries, and what a trace shows *)

(** The value [record.get("ses", {}).get("mail", {}).get("messageId")]
    yields when every object on the path has [get]: the message id, or
    [PNone] when a key of the path is missing. *)
Definition record_message_id (record : pyval) : option pyval :=
  ses ← dict_get record "ses" (PDict []);
  mail ← dict_get ses "mail" (PDict []);
  dict_get mail "messageId" PNone.

(** The identifiers of a batch that are usable: present and true. *)
Definition usable_ids (records : list pyval) : list pyval :=
  filter (λ id, py_truthy id = true) (omap record_message_id records).

(** A record on which the path to the identifier can be walked: it is an
    object, and so are its [ses] and the [mail] of that, where present. *)
Definition navigable (record : pyval) : Prop :=
  is_Some (record_message_id record).

(** A record shaped as SES sends it, with the given message id. *)
Definition ses_record (message_id : pyval) : pyval :=
  PDict [("ses", PDict [("mail", PDict [("messageId", message_id)])])].

(** The keys read from the store, the requests sent, the lines printed and
    the environment variables read, in order. *)
Definition get_object_keys (tr : list effect) : list string :=
  omap (λ ev, match ev with GetObject _ Key => Some Key | _ => None end) tr.

Definition http_requests (tr : list effect) : list Request :=
  omap (λ ev, match ev with Urlopen req _ => Some req | _ => None end) tr.

Definition printed_lines (tr : list effect) : list string :=
  omap (λ ev, match ev with Printed line => Some line | _ => None end) tr.

Definition env_reads (tr : list effect) : list string :=
  omap (λ ev, match ev with EnvRead name => Some name | _ => None end) tr.

(** The request [forward_email] builds for an identifier and the bytes read. *)
Definition post_request (self : RawEmailForwarder) (message_id : pyval)
    (body : list byte) : Request :=
  {| url := api_endpoint self;
     data := body;
     method := "POST";
     headers := [("X-Message-ID", message_id)] |}.

(** The forwarder [__init__] builds from an endpoint and a bucket name, the
    events of its construction, the value [lambda_handler] returns, and the
    event that carries a list of records. *)
Definition configured (endpoint bucket : string) : RawEmailForwarder :=
  {| s3_client := {| service_name := "s3" |};
     api_endpoint := endpoint;
     bucket_name := bucket |}.

Definition startup_events : list effect :=
  [Boto3Client "s3"; EnvRead "API_ENDPOINT"; EnvRead "S3_BUCKET_NAME"].

Definition acknowledgement : pyval := PDict [("statusCode", PInt 200)].

Definition batch_event (records : list pyval) : pyval :=
  PDict [("Records", PList records)].

(** Events a call of [forward_email] may add after its read of the store:
    a request to the forwarder's endpoint with the 300 s timeout, and lines
    on the log. *)
Definition sent_or_printed (self : RawEmailForwarder) (ev : effect) : Prop :=
  match ev with
  | Urlopen req timeout => url req = api_endpoint self ∧ timeout = 300
  | Printed _ => True
  | _ => False
  end.

(** Events that use the forwarder's configuration and nothing else: reads of
    its bucket, requests to its endpoint, lines on the log. *)
Definition forwarder_event (self : RawEmailForwarder) (ev : effect) : Prop :=
  match ev with
  | GetObject Bucket _ => Bucket = bucket_name self
  | _ => sent_or_printed self ev
  end.

(** [occurs pat s]: [pat] is a substring of [s]. *)
Definition occurs (pat s : string) : bool :=
  match String.index 0 pat s with
  | Some _ => true
  | None => false
  end.

(** ** Sample worlds *)

(** The bytes of a small message, and a store that holds it under the keys
    it is given. *)
Definition sample_mail : list byte := [x46; x72; x6f; x6d; x3a; x20; x61; x0d; x0a].

Definition store_with (keys : list string) (Key : string) : s3_outcome :=
  if bool_decide (Key ∈ keys) then S3Object sample_mail
  else S3ClientError "NoSuchKey" "The specified key does not exist.".

(** [repr] of a string whose characters outside ASCII are printable: in
    single quotes, or in double quotes when it holds a single quote and no
    double one. *)
Definition str_repr (s : string) : string :=
  let chars := N_of_ascii <$> String.list_ascii_of_string s in
  let quote : N :=
    if bool_decide (39%N ∈ chars) && negb (bool_decide (34%N ∈ chars)) then 34%N
    else 39%N in
  let escape (c : N) : string :=
    if (c =? quote)%N || (c =? 92)%N then String "\" (String (ascii_of_N c) "")
    else if (c =? 9)%N then "\t"
    else if (c =? 10)%N then "\n"
    else if (c =? 13)%N then "\r"
    else if (c <? 32)%N || (c =? 127)%N then "\x" +:+ hex 2 c
    else String (ascii_of_N c) "" in
  String (ascii_of_N quote) ""
    +:+ String.concat "" (escape <$> chars)
    +:+ String (ascii_of_N quote) "".

(** [repr] and [str] of a value.  They differ on text only. *)
Fixpoint py_repr (v : pyval) : string :=
  match v with
  | PNone => "None"
  | PBool true => "True"
  | PBool false => "False"
  | PInt n => pretty n
  | PStr s => str_repr s
  | PList items => "[" +:+ String.concat ", " (py_repr <$> items) +:+ "]"
  | PDict entries =>
      "{" +:+ String.concat ", "
                ((λ kv, let '(k, v0) := kv in str_repr k +:+ ": " +:+ py_repr v0)
                   <$> entries)
          +:+ "}"
  end.

Definition sample_py_str (v : pyval) : string :=
  match v with
  | PStr s => s
  | _ => py_repr v
  end.

(** A world with both variables set, the given store, and an endpoint that
    always reacts in the same way. *)
Definition sample_world (store : string → s3_outcome) (reaction : http_outcome) : world :=
  {| environ := {[ "API_ENDPOINT" := "https://api.example.com/mail";
                   "S3_BUCKET_NAME" := "inbound-mail" ]};
     s3_get_object := λ _ _ Key, store Key;
     http_endpoint := λ _ _ _, reaction;
     py_str := sample_py_str |}.

(** The identifier [m€], as its UTF-8 bytes: the object key it names can be
    read, but it cannot be written as the value of a header. *)
Definition unwritable_id : string :=
  String "m" (String (ascii_of_N 226) (String (ascii_of_N 130)
    (String (ascii_of_N 172) ""))).

Definition sample_forwarder : RawEmailForwarder :=
  configured "https://api.example.com/mail" "inbound-mail".

(** The batch of three records of which the middle one has no identifier. *)
Definition sample_records : list pyval :=
  [ses_record (PStr "m1"); PDict []; ses_record (PStr "m2")].

(** ** Lines of the log *)

(** The line [forward_email] prints in its [except] clause, and the one it
    prints for a response whose status is not 200. *)
Definition error_line (w : world) (message_id : pyval) (e : exn) : string :=
  "Error processing message " +:+ fstring w message_id +:+ ": " +:+ exn_str e.

Definition status_line (status : Z) : string :=
  "API error status code: " +:+ pretty status.

(** ** Shapes of events and traces *)

(** The objects a [for] loop cannot draw from. *)
Definition not_iterable (v : pyval) : bool :=
  match v with
  | PNone | PBool _ | PInt _ => true
  | _ => false
  end.

(** The values [if message_id:] takes for false. *)
Definition falsy_values : list pyval :=
  [PNone; PBool false; PInt 0; PStr ""; PList []; PDict []].

(** The message ids named by the requests of a trace, in order. *)
Definition posted_ids (tr : list effect) : list (option pyval) :=
  (λ req, dict_lookup "X-Message-ID" (headers req)) <$> http_requests tr.

(** A status for which [urlopen] hands back a response that is then
    reported on the log. *)
Definition reported_status (status : Z) : Prop :=
  200 ≤ status < 300 ∧ status ≠ 200.

(** Every request of the trace comes right after a read of the store that
    yielded the bytes the request carries, under the key that is the
    request's message id. *)
Definition requests_follow_reads (w : world) (tr : list effect) : Prop :=
  ∀ before req timeout after,
    tr = before ++ Urlopen req timeout :: after →
    ∃ earlier Bucket message_id,
      before = earlier ++ [GetObject Bucket (fstring w message_id)]
      ∧ s3_get_object w earlier Bucket (fstring w message_id) = S3Object (data req)
      ∧ headers req = [("X-Message-ID", message_id)].

(** ** The report script (python/scirpt.py)

    The script lists the [ServiceState] entities of the Datastore as a table.
    A datetime is left opaque, as is any value that is neither a datetime
    nor a string; text is taken as its UTF-8 bytes, whose order is the order
    of Python's strings.  Three calls into libraries are left to a
    [runtime]: the conversion of a datetime to Japan time, the sort of the
    rows, and the layout of the table. *)
Module Scirpt.

Section Script.

Context {datetime other : Type}.

Inductive value :=
| Datetime (dt : datetime)
| Str (s : string)
| Other (o : other).

(** A dict with string keys, in insertion order. *)
Definition dict : Type := list (string * value).

(** [d.get(k)]. *)
Fixpoint dict_get (k : string) (d : dict) : option value :=
  match d with
  | [] => None
  | (k', v) :: rest => if String.eqb k k' then Some v else dict_get k rest
  end.

(** [d[k] = v]: a key that is there keeps its place. *)
Fixpoint dict_set (k : string) (v : value) (d : dict) : dict :=
  match d with
  | [] => [(k, v)]
  | (k', v') :: rest =>
      if String.eqb k k' then (k, v) :: rest else (k', v') :: dict_set k v rest
  end.

(** [{**d, k1: v1, ...}]: the entries are set one after the other. *)
Definition dict_update (d : dict) (entries : list (string * value)) : dict :=
  foldl (λ acc kv, dict_set kv.1 kv.2 acc) d entries.

(** A Datastore entity: [entity.key.id_or_name] and [entity.items()]. *)
Record Entity := {
  id_or_name : value;
  items : list (string * value);
}.

(** [astimezone_JST dt] is [dt.astimezone(JST)], [None] when it raises (a
    date at the edge of the range); [list_sort key rows] is
    [rows.sort(key=key)], [None] when a comparison of two keys raises;
    [tabulate] is the function of that name. *)
Record runtime := {
  astimezone_JST : datetime → option datetime;
  datetime_min : datetime;
  list_sort : (dict → value) → list dict → option (list dict);
  tabulate : list (list value) → list string → string → string;
}.

Variable rt : runtime.

Definition isinstance_datetime (v : value) : bool :=
  match v with
  | Datetime _ => true
  | _ => false
  end.

(** [to_japan_time]. *)
Definition to_japan_time (dt : value) : option value :=
  match dt with
  | Datetime d => Datetime <$> astimezone_JST rt d
  | _ => Some dt
  end.

(** [to_japan_time(v) if "time" in k or isinstance(v, datetime) else v]. *)
Definition format_value (k : string) (v : value) : option value :=
  if occurs "time" k || isinstance_datetime v then to_japan_time v else Some v.

(** The row of an entity:
    [{"ID/Name": entity.key.id_or_name, **{k: ... for k, v in entity.items()}}]. *)
Definition row (entity : Entity) : option dict :=
  formatted ← mapM (λ kv, v ← format_value kv.1 kv.2; Some (kv.1, v)) (items entity);
  Some (dict_update [("ID/Name", id_or_name entity)] (dict_update [] formatted)).

(** [lambda x: x.get("created_at", datetime.min)]. *)
Definition sort_key (x : dict) : value :=
  default (Datetime (datetime_min rt)) (dict_get "created_at" x).

(** [sorted(set(key for entity in formatted_results for key in entity.keys()))]:
    the keys without repetition, in increasing order. *)
Definition headers (formatted_results : list dict) : list string :=
  merge_sort String.le (remove_dups (formatted_results ≫= λ entity, entity.*1)).

(** [[[e.get(h, "") for h in headers] for e in formatted_results]]. *)
Definition table_data (formatted_results : list dict) (headers : list string)
    : list (list value) :=
  (λ e, (λ h, default (Str "") (dict_get h e)) <$> headers) <$> formatted_results.

(** The script from line 31 on, given the entities fetched: what it prints,
    or [None] when an exception ends it. *)
Definition script (results : list Entity) : option string :=
  match results with
  | [] => Some "No entities found"
  | _ =>
      formatted_results ← mapM row results;
      formatted_results ← list_sort rt sort_key formatted_results;
      let headers := headers formatted_results in
      let table_data := table_data formatted_results headers in
      Some (tabulate rt table_data headers "grid")
  end.

End Script.

Arguments value : clear implicits.
Arguments dict : clear implicits.
Arguments Entity : clear implicits.
Arguments runtime : clear implicits.

End Scirpt.

(** ** Sample entities *)

(** The datetimes of the sample runs: one that knows its zone, as the
    Datastore hands them out, given by its instant (in minutes since
    1970-01-01 00:00 UTC) and the offset of its zone from UTC (in minutes);
    and [datetime.min], which knows no zone. *)
Inductive sample_datetime :=
| Aware (instant : N) (utcoffset : Z)
| Min.

(** The minutes from 1970-01-01 00:00 UTC to the end of the year 9999. *)
Definition minutes_to_max : Z := 4223371680.

(** [dt.astimezone(JST)]: the same instant, nine hours ahead of UTC (as
    Japan time has been since 1952); it raises when the local time falls
    after the year 9999, and for [datetime.min]. *)
Definition sample_astimezone_JST (dt : sample_datetime) : option sample_datetime :=
  match dt with
  | Aware instant _ =>
      if bool_decide (Z.of_N instant + 540 < minutes_to_max)
      then Some (Aware instant 540) else None
  | Min => None
  end.

(** [a < b] on the keys of the sort, [None] when Python raises [TypeError]:
    two datetimes that know their zone are compared by their instants,
    two strings and two integers by their order, and nothing else is
    comparable (a datetime that knows its zone with [datetime.min], or two
    values of different types). *)
Definition sample_lt (a b : Scirpt.value sample_datetime Z) : option bool :=
  match a, b with
  | Scirpt.Datetime (Aware i _), Scirpt.Datetime (Aware j _) => Some (i <? j)%N
  | Scirpt.Datetime Min, Scirpt.Datetime Min => Some false
  | Scirpt.Str s, Scirpt.Str t => Some (String.ltb s t)
  | Scirpt.Other m, Scirpt.Other n => Some (m <? n)
  | _, _ => None
  end.

(** [rows.sort(key=key)]: a stable sort (a row goes before the first row of
    the sorted rest whose key is not less than its own); it raises when a
    comparison does. *)
Fixpoint sample_insert {A} (key : A → Scirpt.value sample_datetime Z)
    (x : A) (sorted : list A) : option (list A) :=
  match sorted with
  | [] => Some [x]
  | y :: rest =>
      less ← sample_lt (key y) (key x);
      if less : bool then (y ::.) <$> sample_insert key x rest
      else Some (x :: y :: rest)
  end.

Fixpoint sample_sort {A} (key : A → Scirpt.value sample_datetime Z)
    (rows : list A) : option (list A) :=
  match rows with
  | [] => Some []
  | x :: rest => sorted ← sample_sort key rest; sample_insert key x sorted
  end.

(** A runtime for sample runs; the layout joins the headers. *)
Definition sample_runtime : Scirpt.runtime sample_datetime Z :=
  {| Scirpt.astimezone_JST := sample_astimezone_JST;
     Scirpt.datetime_min := Min;
     Scirpt.list_sort := sample_sort;
     Scirpt.tabulate := λ _ headers _, String.concat " | " headers |}.

(** An entity with a datetime and a counter whose name contains "time", and
    a later one that has a property called "ID/Name". *)
Definition sample_entity : Scirpt.Entity sample_datetime Z :=
  {| Scirpt.id_or_name := Scirpt.Str "svc-a";
     Scirpt.items := [("state", Scirpt.Str "ok");
                      ("created_at", Scirpt.Datetime (Aware 28401120 0));
                      ("uptime", Scirpt.Other 3)] |}.

Definition shadowed_entity : Scirpt.Entity sample_datetime Z :=
  {| Scirpt.id_or_name := Scirpt.Other 5;
     Scirpt.items := [("ID/Name", Scirpt.Str "alias");
                      ("created_at", Scirpt.Datetime (Aware 28399680 540));
                      ("state", Scirpt.Str "down")] |}.

(** Their rows. *)
Definition sample_row : Scirpt.dict sample_datetime Z :=
  [("ID/Name", Scirpt.Str "svc-a"); ("state", Scirpt.Str "ok");
   ("created_at", Scirpt.Datetime (Aware 28401120 540)); ("uptime", Scirpt.Other 3)].

Definition shadowed_row : Scirpt.dict sample_datetime Z :=
  [("ID/Name", Scirpt.Str "alias");
   ("created_at", Scirpt.Datetime (Aware 28399680 540));
   ("state", Scirpt.Str "down")].

(** An entity without the property the rows are sorted by. *)
Definition undated_entity : Scirpt.Entity sample_datetime Z :=
  {| Scirpt.id_or_name := Scirpt.Str "svc-b";
     Scirpt.items := [("state", Scirpt.Str "ok")] |}.

(** * Properties of [forward_email] *)

Section ForwardEmail.

Variable w : world.

Ltac run_forward :=
  unfold forward_email, try_except, get_object, urlopen, print, emit, history,
    Body_read, post_request, putheader_error, raise, mbind, M_bind, mret, M_ret;
  cbn.

(** C2, as the code has it: when the identifier can be written as the
    value of a header, the object exists in the configured bucket and the
    endpoint answers 200, [forward_email] returns normally; all it does is
    one read of the store and one POST whose body is the stored bytes,
    untouched. *)
Theorem forward_email_delivers (self : RawEmailForwarder) (id : string)
    (body : list byte) (reason : string) (tr : list effect) :
  header_value_error (PStr id) = None →
  s3_get_object w tr (bucket_name self) id = S3Object body →
  http_endpoint w (tr ++ [GetObject (bucket_name self) id])
    (post_request self (PStr id) body) 300 = Responded 200 reason →
  forward_email w self (PStr id) tr
  = (Return (),
     tr ++ [GetObject (bucket_name self) id;
            Urlopen {| url := api_endpoint self;
                       data := body;
                       method := "POST";
                       headers := [("X-Message-ID", PStr id)] |} 300]).
Proof.
  intros Hid Hs3 Hhttp.
  run_forward. rewrite Hs3. cbn. rewrite Hid.
  unfold post_request in Hhttp. rewrite Hhttp. cbn.
  by rewrite <- app_assoc.
Qed.

(** C3: when the store does not hand the object over (missing key, denied
    access, store unreachable), [forward_email] raises the store's error,
    after one line on the log that carries the identifier; no HTTP call is
    made. *)
Theorem forward_email_storage_failure (self : RawEmailForwarder) (id : string)
    (tr : list effect) :
  (∀ body, s3_get_object w tr (bucket_name self) id ≠ S3Object body) →
  ∃ e, StorageFetchError e = true
     ∧ forward_email w self (PStr id) tr
       = (Raise e,
          tr ++ [GetObject (bucket_name self) id;
                 Printed ("Error processing message " +:+ id +:+ ": " +:+ exn_str e)])
     ∧ http_requests (forward_email w self (PStr id) tr).2 = http_requests tr.
Proof.
  intros Hs3. run_forward.
  destruct (s3_get_object w tr (bucket_name self) id) as [body|code msg|msg] eqn:E.
  - by destruct (Hs3 body).
  - exists (ClientError code msg). cbn. rewrite <- app_assoc. split_and!; [done..|].
    unfold http_requests. rewrite omap_app. cbn. by rewrite app_nil_r.
  - exists (EndpointConnectionError msg). cbn. rewrite <- app_assoc. split_and!; [done..|].
    unfold http_requests. rewrite omap_app. cbn. by rewrite app_nil_r.
Qed.

(** C6, as the code has it: when the identifier can be written as the value
    of a header, the object was read and the POST gets no response (no
    connection, or the 300 s timeout passes), [urlopen] raises a network
    error and [forward_email] raises that same error, after one line on the
    log that carries the identifier. *)
Theorem forward_email_network_failure (self : RawEmailForwarder) (id : string)
    (body : list byte) (tr : list effect) :
  header_value_error (PStr id) = None →
  s3_get_object w tr (bucket_name self) id = S3Object body →
  (∀ status reason,
     http_endpoint w (tr ++ [GetObject (bucket_name self) id])
       (post_request self (PStr id) body) 300 ≠ Responded status reason) →
  ∃ e, NetworkError e = true
     ∧ urlopen w (post_request self (PStr id) body) 300
         (tr ++ [GetObject (bucket_name self) id])
       = (Raise e,
          tr ++ [GetObject (bucket_name self) id;
                 Urlopen (post_request self (PStr id) body) 300])
     ∧ forward_email w self (PStr id) tr
       = (Raise e,
          tr ++ [GetObject (bucket_name self) id;
                 Urlopen (post_request self (PStr id) body) 300;
                 Printed ("Error processing message " +:+ id +:+ ": " +:+ exn_str e)]).
Proof.
  intros Hid Hs3 Hhttp. run_forward. rewrite Hs3. cbn. rewrite Hid.
  unfold post_request in Hhttp.
  destruct (http_endpoint w _ _ 300) as [r| | |status reason] eqn:E.
  - exists (URLError r). cbn. by rewrite <- !app_assoc.
  - exists (URLError "timed out"). cbn. by rewrite <- !app_assoc.
  - exists (TimeoutError "timed out"). cbn. by rewrite <- !app_assoc.
  - by destruct (Hhttp status reason).
Qed.

(** C7: whatever the identifier, every request [forward_email] sends is a
    POST whose header [X-Message-ID] is the identifier it was given, as it
    is; and it sends that request as soon as the object was read. *)
Theorem forward_email_message_id_header (self : RawEmailForwarder)
    (message_id : pyval) (tr : list effect) :
  ∃ new, (forward_email w self message_id tr).2 = tr ++ new
       ∧ Forall (λ req, headers req = [("X-Message-ID", message_id)]
                        ∧ dict_lookup "X-Message-ID" (headers req) = Some message_id
                        ∧ method req = "POST")
           (http_requests new)
       ∧ ∀ body, s3_get_object w tr (bucket_name self) (fstring w message_id)
                 = S3Object body →
                 http_requests new = [post_request self message_id body].
Proof.
  run_forward.
  destruct (s3_get_object w tr _ _) as [body|code msg|msg] eqn:Es3; cbn.
  2,3: eexists; rewrite <- app_assoc; split; [done|]; cbn; split; [constructor | done].
  destruct (header_value_error message_id) as [e|]; cbn.
  2: destruct (http_endpoint w _ _ 300) as [r| | |status reason] eqn:E; cbn.
  5: destruct ((200 <=? status) && (status <? 300)); cbn.
  5: destruct (negb (status =? 200)); cbn.
  all: eexists; rewrite <- ?app_assoc; (split; [done|]); cbn.
  all: split; [by repeat constructor | by intros ? [= <-]].
Qed.

(** C1, as the code has it: when the object was read and [urlopen] hands
    back a response whose status is not 200 (it does so for the other 2xx
    statuses, once the identifier was written as a header),
    [forward_email] returns normally; the rejection is one line on the log,
    made of the status code alone, and nothing is raised. *)
Theorem forward_email_rejected (self : RawEmailForwarder) (id : string)
    (body : list byte) (status : Z) (reason : string) (tr : list effect) :
  header_value_error (PStr id) = None →
  s3_get_object w tr (bucket_name self) id = S3Object body →
  http_endpoint w (tr ++ [GetObject (bucket_name self) id])
    (post_request self (PStr id) body) 300 = Responded status reason →
  200 ≤ status < 300 →
  status ≠ 200 →
  urlopen w (post_request self (PStr id) body) 300
    (tr ++ [GetObject (bucket_name self) id])
  = (Return {| status := status |},
     tr ++ [GetObject (bucket_name self) id;
            Urlopen (post_request self (PStr id) body) 300])
  ∧ forward_email w self (PStr id) tr
    = (Return (),
       tr ++ [GetObject (bucket_name self) id;
              Urlopen (post_request self (PStr id) body) 300;
              Printed ("API error status code: " +:+ pretty status)]).
Proof.
  intros Hid Hs3 Hhttp Hrange Hne. run_forward. rewrite Hs3. cbn. rewrite Hid.
  unfold post_request in Hhttp. rewrite Hhttp.
  assert ((200 <=? status) && (status <? 300) = true) as -> by lia.
  cbn. assert (negb (status =? 200) = true) as -> by lia.
  by rewrite <- !app_assoc.
Qed.

(** What one call adds to the trace: the read of the object named by the
    identifier, then at most one request to the configured endpoint and
    lines on the log. *)
Lemma forward_email_trace (self : RawEmailForwarder) (message_id : pyval)
    (tr : list effect) :
  ∃ r new,
    forward_email w self message_id tr
    = (r, tr ++ GetObject (bucket_name self) (fstring w message_id) :: new)
    ∧ Forall (sent_or_printed self) new.
Proof.
  run_forward.
  destruct (s3_get_object w tr _ _) as [body|code msg|msg] eqn:Es3; cbn.
  2,3: do 2 eexists; rewrite <- app_assoc; split; [done|]; by repeat constructor.
  destruct (header_value_error message_id) as [e|]; cbn.
  2: destruct (http_endpoint w _ _ 300) as [r| | |status reason] eqn:E; cbn.
  5: destruct ((200 <=? status) && (status <? 300)); cbn.
  5: destruct (negb (status =? 200)); cbn.
  all: do 2 eexists; rewrite <- ?app_assoc; (split; [done|]); by repeat constructor.
Qed.

End ForwardEmail.

(** * Properties of [lambda_handler] *)

Section LambdaHandler.

Variable w : world.

Ltac run_monad :=
  unfold raise, mbind, M_bind, mret, M_ret, emit, history; cbn.

Lemma sent_or_printed_forwarder_event (self : RawEmailForwarder) (new : list effect) :
  Forall (sent_or_printed self) new → Forall (forwarder_event self) new.
Proof.
  intros H. eapply Forall_impl; [exact H|]. by intros [].
Qed.

Lemma sent_or_printed_no_read (self : RawEmailForwarder) (new : list effect) :
  Forall (sent_or_printed self) new →
  get_object_keys new = [] ∧ env_reads new = [].
Proof.
  induction 1 as [|ev new Hev _ [IH1 IH2]]; [done|].
  destruct ev; cbn in *; try done.
Qed.

Lemma forwarder_event_no_env_read (self : RawEmailForwarder) (new : list effect) :
  Forall (forwarder_event self) new → env_reads new = [].
Proof.
  induction 1 as [|ev new Hev _ IH]; [done|].
  destruct ev; cbn in *; try done.
Qed.

(** The loop body on a record whose path can be followed: the call of
    [forward_email] when the message id is true, nothing otherwise. *)
Lemma handle_record_id (forwarder : RawEmailForwarder) (record id : pyval)
    (tr : list effect) :
  record_message_id record = Some id →
  handle_record w forwarder record tr
  = if py_truthy id then forward_email w forwarder id tr else (Return (), tr).
Proof.
  unfold record_message_id, handle_record, py_get. intros H.
  destruct (dict_get record "ses" _) as [ses|]; [|done].
  cbn in H. destruct (dict_get ses "mail" _) as [mail|] eqn:Em; [|done].
  cbn in H. run_monad. rewrite Em. cbn. rewrite H. cbn.
  by destruct (py_truthy id).
Qed.

(** The loop body on a record whose path meets an object without [get]. *)
Lemma handle_record_malformed (forwarder : RawEmailForwarder) (record : pyval)
    (tr : list effect) :
  record_message_id record = None →
  ∃ msg, handle_record w forwarder record tr = (Raise (AttributeError msg), tr).
Proof.
  unfold record_message_id, handle_record, py_get. intros H. run_monad.
  destruct (dict_get record "ses" _) as [ses|]; cbn in *; [|by eexists].
  destruct (dict_get ses "mail" _) as [mail|]; cbn in *; [|by eexists].
  rewrite H. by eexists.
Qed.

Lemma for_each_app {A} (l1 l2 : list A) (body : A → M unit) (tr : list effect) :
  for_each (l1 ++ l2) body tr
  = match for_each l1 body tr with
    | (Return _, tr') => for_each l2 body tr'
    | (Raise e, tr') => (Raise e, tr')
    end.
Proof.
  revert tr. induction l1 as [|x l1 IH]; intros tr; [done|].
  cbn. run_monad. destruct (body x tr) as [[[]|e] tr1]; [apply IH|done].
Qed.

(** With both variables set, [lambda_handler] builds the forwarder, runs the
    loop over the records and acknowledges, unless the loop raised. *)
Lemma lambda_handler_run (endpoint bucket : string) (records : list pyval)
    (context : pyval) (tr : list effect) :
  environ w !! "API_ENDPOINT" = Some endpoint →
  environ w !! "S3_BUCKET_NAME" = Some bucket →
  lambda_handler w (batch_event records) context tr
  = match for_each records (handle_record w (configured endpoint bucket))
            (tr ++ startup_events) with
    | (Return _, tr') => (Return acknowledgement, tr')
    | (Raise e, tr') => (Raise e, tr')
    end.
Proof.
  intros He Hb.
  unfold lambda_handler, RawEmailForwarder_init, boto3_client, os_environ_getitem,
    py_get, py_iter, batch_event.
  run_monad. rewrite He, Hb. cbn. rewrite <- !app_assoc. cbn.
  unfold configured, startup_events.
  by destruct (for_each records _ _) as [[[]|e] tr'].
Qed.

Lemma usable_ids_cons (record : pyval) (rest : list pyval) :
  usable_ids (record :: rest)
  = match record_message_id record with
    | Some id => if py_truthy id then id :: usable_ids rest else usable_ids rest
    | None => usable_ids rest
    end.
Proof.
  unfold usable_ids. cbn. destruct (record_message_id record) as [id|]; [|done].
  rewrite filter_cons. destruct (py_truthy id) eqn:E; by case_decide.
Qed.

Lemma get_object_keys_app (tr1 tr2 : list effect) :
  get_object_keys (tr1 ++ tr2) = get_object_keys tr1 ++ get_object_keys tr2.
Proof. apply omap_app. Qed.

Lemma get_object_keys_read (Bucket Key : string) (new : list effect) :
  get_object_keys (GetObject Bucket Key :: new) = Key :: get_object_keys new.
Proof. reflexivity. Qed.

(** The reads of the store a run of the loop adds are those of the usable
    identifiers, in order, up to the point where the loop stopped. *)
Lemma for_each_records_keys (forwarder : RawEmailForwarder) (records : list pyval)
    (tr tr' : list effect) (r : result unit) :
  for_each records (handle_record w forwarder) tr = (r, tr') →
  ∃ invoked,
    invoked `prefix_of` usable_ids records
    ∧ get_object_keys tr' = get_object_keys tr ++ (fstring w <$> invoked)
    ∧ (r = Return () → invoked = usable_ids records).
Proof.
  revert tr. induction records as [|record rest IH]; intros tr Hrun.
  { injection Hrun as <- <-. exists []. by rewrite app_nil_r. }
  cbn in Hrun. unfold mbind, M_bind in Hrun. rewrite usable_ids_cons.
  destruct (record_message_id record) as [id|] eqn:Eid.
  - rewrite (handle_record_id _ _ _ _ Eid) in Hrun.
    destruct (py_truthy id) eqn:Et; [|by apply IH].
    destruct (forward_email_trace w forwarder id tr) as (r1 & new & Hfwd & Hnew).
    rewrite Hfwd in Hrun.
    apply sent_or_printed_no_read in Hnew as [Hkeys _].
    destruct r1 as [[]|e].
    + destruct (IH _ Hrun) as (invoked & Hpre & -> & Hall).
      exists (id :: invoked). split_and!.
      * by apply prefix_cons.
      * rewrite get_object_keys_app, get_object_keys_read, Hkeys.
        by rewrite <- app_assoc.
      * intros Hr. by rewrite (Hall Hr).
    + injection Hrun as <- <-. exists [id]. split_and!; [|..|done].
      * apply prefix_cons, prefix_nil.
      * by rewrite get_object_keys_app, get_object_keys_read, Hkeys.
  - destruct (handle_record_malformed forwarder record tr Eid) as [msg Hbad].
    rewrite Hbad in Hrun. injection Hrun as <- <-.
    exists []. split_and!; [apply prefix_nil|by rewrite app_nil_r|done].
Qed.

(** Every event a run of the loop adds uses the forwarder's bucket and
    endpoint. *)
Lemma for_each_records_events (forwarder : RawEmailForwarder) (records : list pyval)
    (tr tr' : list effect) (r : result unit) :
  for_each records (handle_record w forwarder) tr = (r, tr') →
  ∃ new, tr' = tr ++ new ∧ Forall (forwarder_event forwarder) new.
Proof.
  revert tr. induction records as [|record rest IH]; intros tr Hrun.
  { injection Hrun as <- <-. exists []. by rewrite app_nil_r. }
  cbn in Hrun. unfold mbind, M_bind in Hrun.
  destruct (record_message_id record) as [id|] eqn:Eid.
  - rewrite (handle_record_id _ _ _ _ Eid) in Hrun.
    destruct (py_truthy id) eqn:Et; [|by apply IH].
    destruct (forward_email_trace w forwarder id tr) as (r1 & new & Hfwd & Hnew).
    rewrite Hfwd in Hrun.
    apply sent_or_printed_forwarder_event in Hnew.
    destruct r1 as [[]|e].
    + destruct (IH _ Hrun) as (new' & -> & Hnew').
      exists (GetObject (bucket_name forwarder) (fstring w id) :: new ++ new').
      split; [by rewrite <- app_assoc|].
      constructor; [done|]. by apply Forall_app.
    + injection Hrun as <- <-. eexists. split; [done|]. by constructor.
  - destruct (handle_record_malformed forwarder record tr Eid) as [msg Hbad].
    rewrite Hbad in Hrun. injection Hrun as <- <-.
    exists []. by rewrite app_nil_r.
Qed.

(** Without one of the two variables, [lambda_handler] stops in
    [__init__], whatever the event. *)
Lemma lambda_handler_no_endpoint (event context : pyval) (tr : list effect) :
  environ w !! "API_ENDPOINT" = None →
  lambda_handler w event context tr
  = (Raise (KeyError "API_ENDPOINT"), tr ++ [Boto3Client "s3"; EnvRead "API_ENDPOINT"]).
Proof.
  intros He.
  unfold lambda_handler, RawEmailForwarder_init, boto3_client, os_environ_getitem.
  run_monad. rewrite He. cbn. by rewrite <- !app_assoc.
Qed.

Lemma lambda_handler_no_bucket (endpoint : string) (event context : pyval)
    (tr : list effect) :
  environ w !! "API_ENDPOINT" = Some endpoint →
  environ w !! "S3_BUCKET_NAME" = None →
  lambda_handler w event context tr
  = (Raise (KeyError "S3_BUCKET_NAME"), tr ++ startup_events).
Proof.
  intros He Hb.
  unfold lambda_handler, RawEmailForwarder_init, boto3_client, os_environ_getitem.
  run_monad. rewrite He, Hb. cbn. by rewrite <- !app_assoc.
Qed.

(** With both variables set and any event at all: after [__init__] the
    handler either fails on the event's shape, adding nothing, or runs the
    loop over the items of [Records]. *)
Lemma lambda_handler_any_event (endpoint bucket : string) (event context : pyval)
    (tr : list effect) :
  environ w !! "API_ENDPOINT" = Some endpoint →
  environ w !! "S3_BUCKET_NAME" = Some bucket →
  (∃ e, lambda_handler w event context tr = (Raise e, tr ++ startup_events))
  ∨ ∃ items,
      lambda_handler w event context tr
      = match for_each items (handle_record w (configured endpoint bucket))
              (tr ++ startup_events) with
        | (Return _, tr') => (Return acknowledgement, tr')
        | (Raise e, tr') => (Raise e, tr')
        end.
Proof.
  intros He Hb.
  unfold lambda_handler, RawEmailForwarder_init, boto3_client, os_environ_getitem,
    py_get, py_iter.
  run_monad. rewrite He, Hb. cbn. rewrite <- !app_assoc. cbn.
  fold startup_events. fold (configured endpoint bucket).
  destruct (dict_get event "Records" _) as [records|]; cbn; [|left; by eexists].
  destruct records as [| | |s|items|entries]; cbn; try (left; by eexists).
  all: right; eexists; reflexivity.
Qed.

(** C4: the batch is processed in order and stops at the first error: when
    the entries before entry i were processed (the handler on them alone
    returns, leaving the trace [tr1]) and [forward_email] raises [e] for the
    identifier of entry i, the handler on the whole batch raises [e], and
    its trace is the one [forward_email] left when it raised: the read for
    entry i is the last one, and nothing is done for the entries after i. *)
Theorem lambda_handler_stops_at_first_error (endpoint bucket : string)
    (pre post : list pyval) (record id context : pyval) (e : exn)
    (tr tr1 tr2 : list effect) :
  environ w !! "API_ENDPOINT" = Some endpoint →
  environ w !! "S3_BUCKET_NAME" = Some bucket →
  lambda_handler w (batch_event pre) context tr = (Return acknowledgement, tr1) →
  record_message_id record = Some id →
  py_truthy id = true →
  forward_email w (configured endpoint bucket) id tr1 = (Raise e, tr2) →
  lambda_handler w (batch_event (pre ++ record :: post)) context tr = (Raise e, tr2)
  ∧ get_object_keys tr2 = get_object_keys tr1 ++ [fstring w id].
Proof.
  intros He Hb Hpre Hid Ht Hfwd.
  rewrite (lambda_handler_run _ _ _ _ _ He Hb) in Hpre.
  rewrite (lambda_handler_run _ _ _ _ _ He Hb), for_each_app.
  destruct (for_each pre _ _) as [[[]|e0] tr0]; [|done].
  injection Hpre as ->. cbn. unfold mbind, M_bind.
  rewrite (handle_record_id _ _ _ _ Hid), Ht, Hfwd. split; [done|].
  destruct (forward_email_trace w (configured endpoint bucket) id tr1)
    as (r1 & new & Hrun & Hnew).
  rewrite Hfwd in Hrun. injection Hrun as <- ->.
  apply sent_or_printed_no_read in Hnew as [Hkeys _].
  by rewrite get_object_keys_app, get_object_keys_read, Hkeys.
Qed.

(** On records that can all be walked, the loop of the handler is the loop
    of [forward_email] over the usable identifiers. *)
Lemma for_each_usable_ids (forwarder : RawEmailForwarder) (records : list pyval)
    (tr : list effect) :
  Forall navigable records →
  for_each records (handle_record w forwarder) tr
  = for_each (usable_ids records) (forward_email w forwarder) tr.
Proof.
  intros Hnav. revert tr.
  induction Hnav as [|record rest [id Hid] _ IH]; intros tr; [done|].
  rewrite usable_ids_cons, Hid. cbn. unfold mbind, M_bind.
  rewrite (handle_record_id _ _ _ _ Hid).
  destruct (py_truthy id); [|apply IH].
  cbn. unfold mbind, M_bind.
  destruct (forward_email w forwarder id tr) as [[[]|e] tr1]; [apply IH|done].
Qed.

(** C5, as the code has it: with the configuration in place and a batch of
    records that can all be walked to their identifier, the handler does
    what calling [forward_email] for each usable identifier does, once
    each, in the order of the records, up to the first call that raises,
    and nothing else.  A record of the batch without a usable identifier
    is passed over: the loop body returns on it and adds nothing to the
    trace.  When the handler returns, the reads of the store, one per call
    of [forward_email], are those of all the usable identifiers, in order.
    For the records [{m1}, {}, {m2}] the usable identifiers are "m1" and
    "m2". *)
Theorem lambda_handler_forwards_usable_ids (endpoint bucket : string)
    (records : list pyval) (context : pyval) (tr : list effect) :
  environ w !! "API_ENDPOINT" = Some endpoint →
  environ w !! "S3_BUCKET_NAME" = Some bucket →
  Forall navigable records →
  lambda_handler w (batch_event records) context tr
  = match for_each (usable_ids records)
            (forward_email w (configured endpoint bucket)) (tr ++ startup_events) with
    | (Return _, tr') => (Return acknowledgement, tr')
    | (Raise e, tr') => (Raise e, tr')
    end
  ∧ (∀ record tr0,
       record ∈ records →
       usable_ids [record] = [] →
       handle_record w (configured endpoint bucket) record tr0 = (Return (), tr0))
  ∧ (∀ v tr',
       lambda_handler w (batch_event records) context tr = (Return v, tr') →
       get_object_keys tr'
       = get_object_keys tr ++ (fstring w <$> usable_ids records))
  ∧ (∀ id tr0,
       get_object_keys (forward_email w (configured endpoint bucket) id tr0).2
       = get_object_keys tr0 ++ [fstring w id])
  ∧ usable_ids sample_records = [PStr "m1"; PStr "m2"].
Proof.
  intros He Hb Hnav. split_and!.
  - by rewrite (lambda_handler_run _ _ _ _ _ He Hb), (for_each_usable_ids _ _ _ Hnav).
  - intros record tr0 Hin Hnone.
    rewrite Forall_forall in Hnav. destruct (Hnav _ Hin) as [id Hid].
    rewrite usable_ids_cons, Hid in Hnone.
    rewrite (handle_record_id _ _ _ _ Hid).
    by destruct (py_truthy id).
  - intros v tr' Hrun.
    rewrite (lambda_handler_run _ _ _ _ _ He Hb) in Hrun.
    destruct (for_each records _ _) as [r0 tr0] eqn:Hloop.
    destruct (for_each_records_keys _ _ _ _ _ Hloop) as (invoked & _ & Hkeys & Hall).
    rewrite get_object_keys_app in Hkeys. cbn in Hkeys. rewrite app_nil_r in Hkeys.
    destruct r0 as [[]|e]; [|done]. injection Hrun as _ <-.
    by rewrite Hkeys, Hall.
  - intros id tr0.
    destruct (forward_email_trace w (configured endpoint bucket) id tr0)
      as (r1 & new & -> & Hnew).
    apply sent_or_printed_no_read in Hnew as [Hkeys _]. cbn [snd].
    by rewrite get_object_keys_app, get_object_keys_read, Hkeys.
  - reflexivity.
Qed.

(** C8: with the configuration in place, when the loop over the records
    ends without an error the handler returns [{"statusCode": 200}]; when
    [forward_email] raises for a record, the handler raises that same
    exception instead of returning; and whatever the event, a value the
    handler returns is [{"statusCode": 200}]. *)
Theorem lambda_handler_acknowledges (endpoint bucket : string)
    (records : list pyval) (context : pyval) (tr : list effect) :
  environ w !! "API_ENDPOINT" = Some endpoint →
  environ w !! "S3_BUCKET_NAME" = Some bucket →
  (∀ tr', for_each records (handle_record w (configured endpoint bucket))
            (tr ++ startup_events) = (Return (), tr') →
          lambda_handler w (batch_event records) context tr
          = (Return acknowledgement, tr'))
  ∧ (∀ pre record post id e tr1 tr2,
       records = pre ++ record :: post →
       for_each pre (handle_record w (configured endpoint bucket))
         (tr ++ startup_events) = (Return (), tr1) →
       record_message_id record = Some id →
       py_truthy id = true →
       forward_email w (configured endpoint bucket) id tr1 = (Raise e, tr2) →
       (lambda_handler w (batch_event records) context tr).1 = Raise e)
  ∧ (∀ event v tr',
       lambda_handler w event context tr = (Return v, tr') →
       v = acknowledgement).
Proof.
  intros He Hb. split_and!.
  - intros tr' Hloop. by rewrite (lambda_handler_run _ _ _ _ _ He Hb), Hloop.
  - intros pre record post id e tr1 tr2 -> Hpre Hid Ht Hfwd.
    rewrite (lambda_handler_run _ _ _ _ _ He Hb), for_each_app, Hpre.
    cbn. unfold mbind, M_bind.
    by rewrite (handle_record_id _ _ _ _ Hid), Ht, Hfwd.
  - intros event v tr' Hrun.
    destruct (lambda_handler_any_event _ _ event context tr He Hb)
      as [[e Hbad]|[items Hloop]].
    + by rewrite Hbad in Hrun.
    + rewrite Hloop in Hrun.
      destruct (for_each items _ _) as [[[]|e] tr0]; [|done].
      by injection Hrun as <- _.
Qed.

(** C9: a run of the handler reads the configuration once, first thing:
    after creating the client it reads [API_ENDPOINT], then
    [S3_BUCKET_NAME], from the environment.  When one of them is not set it
    raises [KeyError] there and then (no default is used, no record is
    looked at).  Otherwise the environment is not read again, and every read
    of the store and every request made afterwards uses the bucket and the
    endpoint that were read. *)
Theorem lambda_handler_configuration (event context : pyval)
    (tr tr' : list effect) (r : result pyval) :
  lambda_handler w event context tr = (r, tr') →
  match environ w !! "API_ENDPOINT", environ w !! "S3_BUCKET_NAME" with
  | Some endpoint, Some bucket =>
      ∃ rest, tr' = tr ++ startup_events ++ rest
            ∧ env_reads rest = []
            ∧ Forall (forwarder_event (configured endpoint bucket)) rest
  | Some _, None =>
      r = Raise (KeyError "S3_BUCKET_NAME") ∧ tr' = tr ++ startup_events
  | None, _ =>
      r = Raise (KeyError "API_ENDPOINT")
      ∧ tr' = tr ++ [Boto3Client "s3"; EnvRead "API_ENDPOINT"]
  end.
Proof.
  intros Hrun.
  destruct (environ w !! "API_ENDPOINT") as [endpoint|] eqn:He.
  2: { rewrite (lambda_handler_no_endpoint _ _ _ He) in Hrun.
       by injection Hrun as <- <-. }
  destruct (environ w !! "S3_BUCKET_NAME") as [bucket|] eqn:Hb.
  2: { rewrite (lambda_handler_no_bucket _ _ _ _ He Hb) in Hrun.
       by injection Hrun as <- <-. }
  destruct (lambda_handler_any_event _ _ event context tr He Hb)
    as [[e Hbad]|[items Hloop]].
  - rewrite Hbad in Hrun. injection Hrun as <- <-.
    exists []. by rewrite app_nil_r.
  - rewrite Hloop in Hrun.
    destruct (for_each items _ _) as [r0 tr0] eqn:Hfor.
    destruct (for_each_records_events _ _ _ _ _ Hfor) as (rest & -> & Hrest).
    exists rest. split_and!.
    + destruct r0 as [[]|e]; injection Hrun as <- <-; by rewrite <- app_assoc.
    + by eapply forwarder_event_no_env_read.
    + done.
Qed.

(** C10: a record whose message id is the empty string is passed over like
    one that has none: the loop body does nothing on it and returns, and
    the handler behaves as if the record were not in the batch.  The
    identifiers [forward_email] is called with, whose reads a run shows,
    are among the usable ones, and the empty string is not one of them. *)
Theorem lambda_handler_skips_empty_id (forwarder : RawEmailForwarder)
    (record context : pyval) (pre post : list pyval) (tr : list effect) :
  record_message_id record = Some (PStr "") →
  handle_record w forwarder record tr = (Return (), tr)
  ∧ handle_record w forwarder record tr = handle_record w forwarder (PDict []) tr
  ∧ lambda_handler w (batch_event (pre ++ record :: post)) context tr
    = lambda_handler w (batch_event (pre ++ post)) context tr
  ∧ ∀ records r tr',
      lambda_handler w (batch_event records) context tr = (r, tr') →
      ∃ invoked,
        invoked `prefix_of` usable_ids records
        ∧ get_object_keys tr' = get_object_keys tr ++ (fstring w <$> invoked)
        ∧ (PStr "" ∉ usable_ids records)
        ∧ (PStr "" ∉ invoked).
Proof.
  intros Hid.
  assert (∀ fwd tr0, handle_record w fwd record tr0 = (Return (), tr0)) as Hskip.
  { intros fwd tr0. by rewrite (handle_record_id _ _ _ _ Hid). }
  assert (∀ records, PStr "" ∉ usable_ids records) as Hne.
  { intros records. unfold usable_ids. rewrite list_elem_of_filter. by intros [? _]. }
  split_and!; [done|by rewrite Hskip|..].
  - destruct (environ w !! "API_ENDPOINT") as [endpoint|] eqn:He.
    2: by rewrite !(lambda_handler_no_endpoint _ _ _ He).
    destruct (environ w !! "S3_BUCKET_NAME") as [bucket|] eqn:Hb.
    2: by rewrite !(lambda_handler_no_bucket _ _ _ _ He Hb).
    rewrite !(lambda_handler_run _ _ _ _ _ He Hb), !for_each_app.
    destruct (for_each pre _ _) as [[[]|e] tr0]; [|done].
    cbn. unfold mbind, M_bind. by rewrite Hskip.
  - intros records r tr' Hrun.
    destruct (environ w !! "API_ENDPOINT") as [endpoint|] eqn:He.
    2: { rewrite (lambda_handler_no_endpoint _ _ _ He) in Hrun.
         injection Hrun as <- <-. exists []. rewrite get_object_keys_app.
         split_and!; [apply prefix_nil|done|done|apply not_elem_of_nil]. }
    destruct (environ w !! "S3_BUCKET_NAME") as [bucket|] eqn:Hb.
    2: { rewrite (lambda_handler_no_bucket _ _ _ _ He Hb) in Hrun.
         injection Hrun as <- <-. exists []. rewrite get_object_keys_app.
         split_and!; [apply prefix_nil|done|done|apply not_elem_of_nil]. }
    rewrite (lambda_handler_run _ _ _ _ _ He Hb) in Hrun.
    destruct (for_each records _ _) as [r0 tr0] eqn:Hloop.
    destruct (for_each_records_keys _ _ _ _ _ Hloop)
      as (invoked & Hpre & Hkeys & _).
    rewrite get_object_keys_app in Hkeys. cbn in Hkeys. rewrite app_nil_r in Hkeys.
    exists invoked. split_and!; [done| |done|].
    + by destruct r0 as [[]|e]; injection Hrun as <- <-.
    + intros Hin. destruct Hpre as [k Hk]. apply (Hne records).
      rewrite Hk. apply elem_of_app. by left.
Qed.

End LambdaHandler.

(** * Further properties of [forward_email] *)

Section ForwardEmailOutcomes.

Variable w : world.

Ltac run_forward :=
  unfold forward_email, try_except, get_object, urlopen, print, emit, history,
    Body_read, post_request, putheader_error, raise, mbind, M_bind, mret, M_ret;
  cbn.

(** All a call can do, by what the store answers, whether the identifier
    can be written as a header, and what the endpoint answers. *)
Lemma forward_email_outcome (self : RawEmailForwarder) (message_id : pyval)
    (tr : list effect) :
  let read := GetObject (bucket_name self) (fstring w message_id) in
  (∃ e, StorageFetchError e = true
      ∧ (∀ body, s3_get_object w tr (bucket_name self) (fstring w message_id)
                 ≠ S3Object body)
      ∧ forward_email w self message_id tr
        = (Raise e, tr ++ [read; Printed (error_line w message_id e)]))
  ∨ ∃ body,
      s3_get_object w tr (bucket_name self) (fstring w message_id) = S3Object body
      ∧ ((∃ e, header_value_error message_id = Some e
             ∧ forward_email w self message_id tr
               = (Raise e,
                  tr ++ [read; Urlopen (post_request self message_id body) 300;
                         Printed (error_line w message_id e)]))
         ∨ header_value_error message_id = None
           ∧ ((∃ e, NetworkError e = true
                  ∧ (∀ status reason,
                       http_endpoint w (tr ++ [read])
                         (post_request self message_id body) 300
                       ≠ Responded status reason)
                  ∧ forward_email w self message_id tr
                    = (Raise e,
                       tr ++ [read; Urlopen (post_request self message_id body) 300;
                              Printed (error_line w message_id e)]))
              ∨ ∃ status reason,
                  http_endpoint w (tr ++ [read]) (post_request self message_id body) 300
                  = Responded status reason
                  ∧ ((¬ (200 ≤ status < 300)
                      ∧ forward_email w self message_id tr
                        = (Raise (HTTPError status reason),
                           tr ++ [read;
                                  Urlopen (post_request self message_id body) 300;
                                  Printed (error_line w message_id
                                             (HTTPError status reason))]))
                     ∨ (200 ≤ status < 300
                        ∧ forward_email w self message_id tr
                          = (Return (),
                             tr ++ [read;
                                    Urlopen (post_request self message_id body) 300]
                                ++ (if status =? 200 then []
                                    else [Printed (status_line status)])))))).
Proof.
  run_forward. unfold error_line, status_line.
  destruct (s3_get_object w tr _ _) as [body|code msg|msg] eqn:Es3; cbn.
  2: { left. exists (ClientError code msg). by rewrite <- app_assoc. }
  2: { left. exists (EndpointConnectionError msg). by rewrite <- app_assoc. }
  right. exists body. split; [done|].
  destruct (header_value_error message_id) as [e|] eqn:Eh; cbn.
  { left. exists e. by rewrite <- !app_assoc. }
  right. split; [done|].
  destruct (http_endpoint w _ _ 300) as [r| | |status reason] eqn:E; cbn.
  - left. exists (URLError r). by rewrite <- !app_assoc.
  - left. exists (URLError "timed out"). by rewrite <- !app_assoc.
  - left. exists (TimeoutError "timed out"). by rewrite <- !app_assoc.
  - right. exists status, reason. split; [done|].
    destruct ((200 <=? status) && (status <? 300)) eqn:Hr; cbn.
    + right. split; [lia|].
      destruct (status =? 200); cbn; by rewrite <- !app_assoc.
    + left. split; [lia|]. by rewrite <- !app_assoc.
Qed.

(** X1: When the identifier was written as a header, the object was read and
    the final status is outside 200..299 (a 404, a 500), [forward_email]
    does not reach its status test: [urlopen] raises [HTTPError], which is
    logged with the identifier and raised again. *)
Theorem forward_email_http_error (self : RawEmailForwarder) (message_id : pyval)
    (body : list byte) (status : Z) (reason : string) (tr : list effect) :
  header_value_error message_id = None →
  s3_get_object w tr (bucket_name self) (fstring w message_id) = S3Object body →
  http_endpoint w (tr ++ [GetObject (bucket_name self) (fstring w message_id)])
    (post_request self message_id body) 300 = Responded status reason →
  ¬ (200 ≤ status < 300) →
  forward_email w self message_id tr
  = (Raise (HTTPError status reason),
     tr ++ [GetObject (bucket_name self) (fstring w message_id);
            Urlopen (post_request self message_id body) 300;
            Printed ("Error processing message " +:+ fstring w message_id
                     +:+ ": HTTP Error " +:+ pretty status +:+ ": " +:+ reason)]).
Proof.
  intros Hid Hs3 Hhttp Hcode.
  destruct (forward_email_outcome self message_id tr)
    as [(e & _ & Hno & _)|(body' & Hs3' & Hcases)].
  { by destruct (Hno body). }
  rewrite Hs3 in Hs3'. injection Hs3' as <-.
  destruct Hcases as [(e & He & _)|[_ Hcases]].
  { by rewrite Hid in He. }
  destruct Hcases as [(e & _ & Hno & _)|(status' & reason' & Hhttp' & Hcases)].
  { by destruct (Hno status reason). }
  rewrite Hhttp in Hhttp'. injection Hhttp' as <- <-.
  destruct Hcases as [[_ ->]|[Hok _]]; [reflexivity|by destruct (Hcode Hok)].
Qed.

(** X2: Whatever [forward_email] raises, the last thing the call did was to
    print the line that names the identifier and that error, and it printed
    nothing else. *)
Theorem forward_email_raise_is_logged (self : RawEmailForwarder)
    (message_id : pyval) (e : exn) (tr tr' : list effect) :
  forward_email w self message_id tr = (Raise e, tr') →
  ∃ before,
    tr' = before ++ [Printed (error_line w message_id e)]
    ∧ printed_lines before = printed_lines tr.
Proof.
  intros Hrun.
  assert (∀ new, printed_lines (tr ++ new) = printed_lines tr ++ printed_lines new)
    as Happ by (intros; apply omap_app).
  destruct (forward_email_outcome self message_id tr)
    as [(e0 & _ & _ & H)
       |(body & _ & [(e0 & _ & H)
                    |[_ [(e0 & _ & _ & H)|(st & rs & _ & [[_ H]|[_ H]])]]])];
    rewrite H in Hrun; [..|done]; injection Hrun as <- <-.
  - exists (tr ++ [GetObject (bucket_name self) (fstring w message_id)]).
    rewrite <- app_assoc, Happ. cbn. by rewrite app_nil_r.
  - exists (tr ++ [GetObject (bucket_name self) (fstring w message_id);
                   Urlopen (post_request self message_id body) 300]).
    rewrite <- app_assoc, Happ. cbn. by rewrite app_nil_r.
  - exists (tr ++ [GetObject (bucket_name self) (fstring w message_id);
                   Urlopen (post_request self message_id body) 300]).
    rewrite <- app_assoc, Happ. cbn. by rewrite app_nil_r.
  - exists (tr ++ [GetObject (bucket_name self) (fstring w message_id);
                   Urlopen (post_request self message_id body) 300]).
    rewrite <- app_assoc, Happ. cbn. by rewrite app_nil_r.
Qed.

(** X3: A normal return means a delivery: the object was read, it was sent in
    one POST, and the endpoint answered with a status in 200..299; the only
    line that may have been printed is the one for a status other than 200. *)
Theorem forward_email_return_is_delivery (self : RawEmailForwarder)
    (message_id : pyval) (tr tr' : list effect) :
  forward_email w self message_id tr = (Return (), tr') →
  ∃ body status reason,
    s3_get_object w tr (bucket_name self) (fstring w message_id) = S3Object body
    ∧ http_endpoint w (tr ++ [GetObject (bucket_name self) (fstring w message_id)])
        (post_request self message_id body) 300 = Responded status reason
    ∧ 200 ≤ status < 300
    ∧ http_requests tr' = http_requests tr ++ [post_request self message_id body]
    ∧ printed_lines tr'
      = printed_lines tr ++ (if status =? 200 then [] else [status_line status]).
Proof.
  intros Hrun.
  destruct (forward_email_outcome self message_id tr)
    as [(e0 & _ & _ & H)
       |(body & Hs3 & [(e0 & _ & H)
                      |[_ [(e0 & _ & _ & H)|(st & rs & Hh & [[_ H]|[Hc H]])]]])];
    rewrite H in Hrun; try done.
  injection Hrun as <-. exists body, st, rs.
  split; [done|]. split; [done|]. split; [done|]. split.
  - unfold http_requests. rewrite !omap_app. cbn.
    destruct (st =? 200); cbn; by rewrite ?app_nil_r.
  - unfold printed_lines. rewrite !omap_app. cbn. by destruct (st =? 200).
Qed.

(** X17: An identifier that cannot be written as the value of a header (a
    character above U+00FF, a bare line feed or carriage return, a list, an
    object, null) is not delivered: once the object was read, [urlopen]
    raises what http.client raises for the value, whatever the endpoint
    would have answered, and [forward_email] logs it with the identifier
    and raises it again. *)
Theorem forward_email_unwritable_id (self : RawEmailForwarder) (message_id : pyval)
    (body : list byte) (e : exn) (tr : list effect) :
  header_value_error message_id = Some e →
  s3_get_object w tr (bucket_name self) (fstring w message_id) = S3Object body →
  forward_email w self message_id tr
  = (Raise e,
     tr ++ [GetObject (bucket_name self) (fstring w message_id);
            Urlopen (post_request self message_id body) 300;
            Printed ("Error processing message " +:+ fstring w message_id
                     +:+ ": " +:+ exn_str e)]).
Proof.
  intros Hid Hs3.
  destruct (forward_email_outcome self message_id tr)
    as [(e0 & _ & Hno & _)|(body' & Hs3' & Hcases)].
  { by destruct (Hno body). }
  rewrite Hs3 in Hs3'. injection Hs3' as <-.
  destruct Hcases as [(e0 & He0 & ->)|[Hnone _]].
  - rewrite Hid in He0. by injection He0 as <-.
  - by rewrite Hid in Hnone.
Qed.

End ForwardEmailOutcomes.

(** * Further properties of [lambda_handler] *)

Section LambdaHandlerEdges.

Variable w : world.

Ltac run_monad :=
  unfold raise, mbind, M_bind, mret, M_ret, emit, history; cbn.

(** With both variables set, an event that is a dict and whose [Records]
    (the empty list when the key is missing) is a list: the handler is the
    loop over that list. *)
Lemma lambda_handler_records (endpoint bucket : string) (event context : pyval)
    (records : list pyval) (tr : list effect) :
  environ w !! "API_ENDPOINT" = Some endpoint →
  environ w !! "S3_BUCKET_NAME" = Some bucket →
  dict_get event "Records" (PList []) = Some (PList records) →
  lambda_handler w event context tr
  = match for_each records (handle_record w (configured endpoint bucket))
            (tr ++ startup_events) with
    | (Return _, tr') => (Return acknowledgement, tr')
    | (Raise e, tr') => (Raise e, tr')
    end.
Proof.
  intros He Hb Hrec.
  unfold lambda_handler, RawEmailForwarder_init, boto3_client, os_environ_getitem,
    py_get, py_iter.
  run_monad. rewrite He, Hb. cbn. rewrite <- !app_assoc. cbn. rewrite Hrec. cbn.
  reflexivity.
Qed.

(** X4: An event without [Records], or with an empty list of them: the handler
    builds the forwarder, touches neither the store nor the endpoint, and
    returns [{"statusCode": 200}]. *)
Theorem lambda_handler_no_records (endpoint bucket : string)
    (entries : list (string * pyval)) (context : pyval) (tr : list effect) :
  environ w !! "API_ENDPOINT" = Some endpoint →
  environ w !! "S3_BUCKET_NAME" = Some bucket →
  dict_lookup "Records" entries = None
  ∨ dict_lookup "Records" entries = Some (PList []) →
  lambda_handler w (PDict entries) context tr
  = (Return acknowledgement, tr ++ startup_events).
Proof.
  intros He Hb Hrec.
  rewrite (lambda_handler_records endpoint bucket _ _ [] _ He Hb); [done|].
  cbn. by destruct Hrec as [-> | ->].
Qed.

(** X5: An event of the wrong shape fails after the forwarder was built and
    before anything is read or sent: [AttributeError] when the event is not
    a dict, [TypeError] when [Records] is present but is null, a boolean or
    a number. *)
Theorem lambda_handler_bad_event (endpoint bucket : string)
    (event context : pyval) (tr : list effect) :
  environ w !! "API_ENDPOINT" = Some endpoint →
  environ w !! "S3_BUCKET_NAME" = Some bucket →
  (dict_get event "Records" (PList []) = None →
   lambda_handler w event context tr
   = (Raise (AttributeError
               ("'" +:+ py_type_name event +:+ "' object has no attribute 'get'")),
      tr ++ startup_events))
  ∧ (∀ records,
       dict_get event "Records" (PList []) = Some records →
       not_iterable records = true →
       lambda_handler w event context tr
       = (Raise (TypeError
                   ("'" +:+ py_type_name records +:+ "' object is not iterable")),
          tr ++ startup_events)).
Proof.
  intros He Hb.
  unfold lambda_handler, RawEmailForwarder_init, boto3_client, os_environ_getitem,
    py_get, py_iter.
  run_monad. rewrite He, Hb. cbn. rewrite <- !app_assoc. cbn.
  split.
  - by intros ->.
  - intros records -> Hni. cbn. by destruct records.
Qed.

(** The loop body on a record whose path meets an object that is not a
    dict: the message of the [AttributeError] names the type of that object. *)
Lemma handle_record_no_get (forwarder : RawEmailForwarder) (record : pyval)
    (tr : list effect) :
  record_message_id record = None →
  ∃ obj, dict_get obj "" PNone = None
       ∧ handle_record w forwarder record tr
         = (Raise (AttributeError
                     ("'" +:+ py_type_name obj +:+ "' object has no attribute 'get'")),
            tr).
Proof.
  unfold record_message_id, handle_record, py_get. intros H. run_monad.
  destruct (dict_get record "ses" _) as [ses|] eqn:E1; cbn in *.
  2: { exists record. split; [by destruct record|done]. }
  destruct (dict_get ses "mail" _) as [mail|] eqn:E2; cbn in *.
  2: { exists ses. split; [by destruct ses|done]. }
  rewrite H. exists mail. split; [by destruct mail|done].
Qed.

(** X6: A record in which [ses] or [mail] is present but is not an object (null,
    say) is not passed over: the handler raises [AttributeError] at that
    record.  The records before it were processed, the records after it are
    not looked at, and nothing is printed for it. *)
Theorem lambda_handler_malformed_record_aborts (endpoint bucket : string)
    (pre post : list pyval) (record context : pyval) (tr tr1 : list effect) :
  environ w !! "API_ENDPOINT" = Some endpoint →
  environ w !! "S3_BUCKET_NAME" = Some bucket →
  lambda_handler w (batch_event pre) context tr = (Return acknowledgement, tr1) →
  record_message_id record = None →
  ∃ obj,
    dict_get obj "" PNone = None
    ∧ lambda_handler w (batch_event (pre ++ record :: post)) context tr
      = (Raise (AttributeError
                  ("'" +:+ py_type_name obj +:+ "' object has no attribute 'get'")),
         tr1).
Proof.
  intros He Hb Hpre Hbad.
  rewrite (lambda_handler_run w _ _ _ _ _ He Hb) in Hpre.
  rewrite (lambda_handler_run w _ _ _ _ _ He Hb), for_each_app.
  destruct (for_each pre _ _) as [[[]|e] tr0]; [|done].
  injection Hpre as ->. cbn. unfold mbind, M_bind.
  destruct (handle_record_no_get (configured endpoint bucket) record tr1 Hbad)
    as (obj & Hobj & ->).
  by exists obj.
Qed.

(** X7: The test on the message id is its truth value and nothing more.  A
    record is passed over exactly when the id is missing or null, false, 0,
    or an empty string, list or object; for any other value, a string or
    not, [forward_email] is called, and its first act is the read of the
    key the value formats to. *)
Theorem handle_record_skips_exactly_falsy (forwarder : RawEmailForwarder)
    (record id : pyval) (tr : list effect) :
  record_message_id record = Some id →
  (py_truthy id = false ↔ id ∈ falsy_values)
  ∧ (py_truthy id = false →
     handle_record w forwarder record tr = (Return (), tr))
  ∧ (py_truthy id = true →
     ∃ r new,
       handle_record w forwarder record tr
       = (r, tr ++ GetObject (bucket_name forwarder) (fstring w id) :: new)
       ∧ Forall (sent_or_printed forwarder) new).
Proof.
  intros Hid. rewrite (handle_record_id w _ _ _ _ Hid). split_and!.
  - unfold falsy_values. rewrite !elem_of_cons, elem_of_nil. split.
    + destruct id as [|[]|n|s|[|]|[|]]; cbn; intros H; try done.
      * by left.
      * by right; left.
      * right; right; left. f_equal. lia.
      * destruct s; [|done]. by right; right; right; left.
      * by right; right; right; right; left.
      * by right; right; right; right; right; left.
    + intros [->|[->|[->|[->|[->|[->|[]]]]]]]; done.
  - by intros ->.
  - intros ->. apply forward_email_trace.
Qed.

(** X8: Processing is incremental: what the handler does on the first records
    of a batch does not depend on the records that follow.  The trace of the
    shorter batch is the beginning of the trace of the longer one, and when
    the shorter batch fails the longer one fails in the same way. *)
Theorem lambda_handler_prefix (pre post : list pyval) (context : pyval)
    (tr : list effect) :
  (lambda_handler w (batch_event pre) context tr).2
    `prefix_of` (lambda_handler w (batch_event (pre ++ post)) context tr).2
  ∧ ∀ e, (lambda_handler w (batch_event pre) context tr).1 = Raise e →
         lambda_handler w (batch_event (pre ++ post)) context tr
         = lambda_handler w (batch_event pre) context tr.
Proof.
  destruct (environ w !! "API_ENDPOINT") as [endpoint|] eqn:He.
  2: by rewrite !(lambda_handler_no_endpoint w _ _ _ He).
  destruct (environ w !! "S3_BUCKET_NAME") as [bucket|] eqn:Hb.
  2: by rewrite !(lambda_handler_no_bucket w _ _ _ _ He Hb).
  rewrite !(lambda_handler_run w _ _ _ _ _ He Hb), for_each_app.
  destruct (for_each pre _ _) as [[[]|e] tr1] eqn:Hpre; [|done].
  split; [|done]. cbn.
  destruct (for_each post _ tr1) as [r tr2] eqn:Hpost.
  destruct (for_each_records_events w _ _ _ _ _ Hpost) as (new & -> & _).
  destruct r as [[]|e]; by apply prefix_app_r.
Qed.

Lemma snoc_split {A} (l before after : list A) (x y : A) :
  l ++ [x] = before ++ y :: after →
  (after = [] ∧ before = l ∧ y = x)
  ∨ ∃ after', after = after' ++ [x] ∧ l = before ++ y :: after'.
Proof.
  destruct after as [|z after' _] using rev_ind; intros H.
  - left. apply app_inj_tail in H as [-> ->]. done.
  - right. exists after'.
    change (l ++ [x] = before ++ (y :: after') ++ [z]) in H.
    rewrite app_assoc in H. apply app_inj_tail in H as [-> <-].
    by split.
Qed.

Lemma requests_follow_reads_other (tr : list effect) (ev : effect) :
  requests_follow_reads w tr →
  (∀ req timeout, ev ≠ Urlopen req timeout) →
  requests_follow_reads w (tr ++ [ev]).
Proof.
  intros Htr Hev before req timeout after Heq.
  apply snoc_split in Heq as [(_ & _ & Heq)|(after' & _ & ->)].
  - by destruct (Hev req timeout).
  - by eapply Htr.
Qed.

Lemma requests_follow_reads_request (tr : list effect) (Bucket : string)
    (message_id : pyval) (req : Request) (timeout : Z) :
  requests_follow_reads w tr →
  s3_get_object w tr Bucket (fstring w message_id) = S3Object (data req) →
  headers req = [("X-Message-ID", message_id)] →
  requests_follow_reads w
    ((tr ++ [GetObject Bucket (fstring w message_id)]) ++ [Urlopen req timeout]).
Proof.
  intros Htr Hs3 Hh before req' timeout' after Heq.
  apply snoc_split in Heq as [(_ & -> & [= -> ->])|(after' & _ & Heq)].
  - by exists tr, Bucket, message_id.
  - eapply (requests_follow_reads_other tr); [done| |exact Heq]. done.
Qed.

Lemma forward_email_requests_follow_reads (self : RawEmailForwarder)
    (message_id : pyval) (tr : list effect) :
  requests_follow_reads w tr →
  requests_follow_reads w (forward_email w self message_id tr).2.
Proof.
  intros Htr.
  pose proof (requests_follow_reads_other tr
                (GetObject (bucket_name self) (fstring w message_id)) Htr
                ltac:(done)) as Hread.
  destruct (forward_email_outcome w self message_id tr)
    as [(e & _ & _ & ->)
       |(body & Hs3 & [(e & _ & ->)
                      |[_ [(e & _ & _ & ->)|(st & rs & _ & [[_ ->]|[_ ->]])]]])];
    cbn [snd].
  - change (requests_follow_reads w
              (tr ++ [GetObject (bucket_name self) (fstring w message_id)]
                  ++ [Printed (error_line w message_id e)])).
    rewrite app_assoc. by apply requests_follow_reads_other.
  - change (requests_follow_reads w
              (tr ++ [GetObject (bucket_name self) (fstring w message_id)]
                  ++ [Urlopen (post_request self message_id body) 300]
                  ++ [Printed (error_line w message_id e)])).
    rewrite !app_assoc. apply requests_follow_reads_other; [|done].
    by apply requests_follow_reads_request.
  - change (requests_follow_reads w
              (tr ++ [GetObject (bucket_name self) (fstring w message_id)]
                  ++ [Urlopen (post_request self message_id body) 300]
                  ++ [Printed (error_line w message_id e)])).
    rewrite !app_assoc. apply requests_follow_reads_other; [|done].
    by apply requests_follow_reads_request.
  - change (requests_follow_reads w
              (tr ++ [GetObject (bucket_name self) (fstring w message_id)]
                  ++ [Urlopen (post_request self message_id body) 300]
                  ++ [Printed (error_line w message_id (HTTPError st rs))])).
    rewrite !app_assoc. apply requests_follow_reads_other; [|done].
    by apply requests_follow_reads_request.
  - destruct (st =? 200).
    + rewrite app_nil_r.
      change (requests_follow_reads w
                (tr ++ [GetObject (bucket_name self) (fstring w message_id)]
                    ++ [Urlopen (post_request self message_id body) 300])).
      rewrite app_assoc. by apply requests_follow_reads_request.
    + change (requests_follow_reads w
                (tr ++ ([GetObject (bucket_name self) (fstring w message_id)]
                    ++ [Urlopen (post_request self message_id body) 300])
                    ++ [Printed (status_line st)])).
      rewrite !app_assoc. apply requests_follow_reads_other; [|done].
      by apply requests_follow_reads_request.
Qed.

Lemma for_each_requests_follow_reads (forwarder : RawEmailForwarder)
    (records : list pyval) (tr : list effect) :
  requests_follow_reads w tr →
  requests_follow_reads w (for_each records (handle_record w forwarder) tr).2.
Proof.
  revert tr. induction records as [|record rest IH]; intros tr Htr; [done|].
  cbn. unfold mbind, M_bind.
  destruct (record_message_id record) as [id|] eqn:Eid.
  - rewrite (handle_record_id w _ _ _ _ Eid).
    destruct (py_truthy id); [|by apply IH].
    pose proof (forward_email_requests_follow_reads forwarder id tr Htr) as Hfwd.
    destruct (forward_email w forwarder id tr) as [[[]|e] tr1]; [by apply IH|done].
  - destruct (handle_record_malformed w forwarder record tr Eid) as [msg ->]. done.
Qed.

(** X9: Nothing is sent that was not just read: in the trace of a run, every
    request comes right after a read of the store that succeeded, carries
    the very bytes that read returned, and names in [X-Message-ID] the
    identifier whose key was read. *)
Theorem lambda_handler_requests_follow_reads (event context : pyval)
    (tr : list effect) :
  requests_follow_reads w tr →
  requests_follow_reads w (lambda_handler w event context tr).2.
Proof.
  intros Htr.
  assert (requests_follow_reads w (tr ++ startup_events)) as Hstart.
  { unfold startup_events.
    change (requests_follow_reads w
              (tr ++ [Boto3Client "s3"] ++ [EnvRead "API_ENDPOINT"]
                  ++ [EnvRead "S3_BUCKET_NAME"])).
    rewrite !app_assoc. by repeat apply requests_follow_reads_other. }
  destruct (environ w !! "API_ENDPOINT") as [endpoint|] eqn:He.
  2: { rewrite (lambda_handler_no_endpoint w _ _ _ He). cbn [snd].
       change (requests_follow_reads w
                 (tr ++ [Boto3Client "s3"] ++ [EnvRead "API_ENDPOINT"])).
       rewrite !app_assoc. by repeat apply requests_follow_reads_other. }
  destruct (environ w !! "S3_BUCKET_NAME") as [bucket|] eqn:Hb.
  2: by rewrite (lambda_handler_no_bucket w _ _ _ _ He Hb).
  destruct (lambda_handler_any_event w _ _ event context tr He Hb)
    as [[e ->]|[items ->]]; [done|].
  pose proof (for_each_requests_follow_reads (configured endpoint bucket) items
                _ Hstart) as Hloop.
  by destruct (for_each items _ _) as [[[]|e] tr1].
Qed.

(** The loop raises either because a record has the wrong shape or because
    a call of [forward_email] raised. *)
Lemma for_each_records_raise (forwarder : RawEmailForwarder) (records : list pyval)
    (e : exn) (tr tr' : list effect) :
  for_each records (handle_record w forwarder) tr = (Raise e, tr') →
  (∃ msg, e = AttributeError msg)
  ∨ ∃ id tr0, forward_email w forwarder id tr0 = (Raise e, tr').
Proof.
  revert tr. induction records as [|record rest IH]; intros tr Hrun; [done|].
  cbn in Hrun. unfold mbind, M_bind in Hrun.
  destruct (record_message_id record) as [id|] eqn:Eid.
  - rewrite (handle_record_id w _ _ _ _ Eid) in Hrun.
    destruct (py_truthy id); [|by eapply IH].
    destruct (forward_email w forwarder id tr) as [[[]|e0] tr1] eqn:Hfwd.
    + by eapply IH.
    + injection Hrun as <- <-. right. by exists id, tr.
  - destruct (handle_record_malformed w forwarder record tr Eid) as [msg Hbad].
    rewrite Hbad in Hrun. injection Hrun as <- _. left. by exists msg.
Qed.

(** X10: An exception that leaves the handler was raised either outside
    any call of [forward_email] ([KeyError] for a variable that is not set,
    [AttributeError] or [TypeError] for an event or a record of the wrong
    shape), or by a call of [forward_email], and then the last thing the
    run did was to print the line naming the identifier and that error. *)
Theorem lambda_handler_failures (event context : pyval) (e : exn)
    (tr tr' : list effect) :
  lambda_handler w event context tr = (Raise e, tr') →
  (∃ name, e = KeyError name ∧ environ w !! name = None)
  ∨ (∃ msg, e = AttributeError msg ∨ e = TypeError msg)
  ∨ (∃ forwarder message_id tr0 before,
       forward_email w forwarder message_id tr0 = (Raise e, tr')
       ∧ tr' = before ++ [Printed (error_line w message_id e)]).
Proof.
  intros Hrun.
  destruct (environ w !! "API_ENDPOINT") as [endpoint|] eqn:He.
  2: { rewrite (lambda_handler_no_endpoint w _ _ _ He) in Hrun.
       injection Hrun as <- _. left. by exists "API_ENDPOINT". }
  destruct (environ w !! "S3_BUCKET_NAME") as [bucket|] eqn:Hb.
  2: { rewrite (lambda_handler_no_bucket w _ _ _ _ He Hb) in Hrun.
       injection Hrun as <- _. left. by exists "S3_BUCKET_NAME". }
  right.
  unfold lambda_handler, RawEmailForwarder_init, boto3_client, os_environ_getitem,
    py_get, py_iter in Hrun.
  run_monad. revert Hrun. run_monad. rewrite He, Hb. cbn. rewrite <- !app_assoc. cbn.
  destruct (dict_get event "Records" _) as [records|]; cbn.
  2: { intros [= <- _]. left. eexists. by left. }
  assert (∀ items,
            (let (r, tr'0) :=
               for_each items
                 (handle_record w
                    {| s3_client := {| service_name := "s3" |};
                       api_endpoint := endpoint;
                       bucket_name := bucket |})
                 (tr ++ [Boto3Client "s3"; EnvRead "API_ENDPOINT";
                         EnvRead "S3_BUCKET_NAME"]) in
             match r with
             | Return _ => (Return (PDict [("statusCode", PInt 200)]), tr'0)
             | Raise e0 => (Raise e0, tr'0)
             end) = (Raise e, tr') →
            (∃ msg, e = AttributeError msg ∨ e = TypeError msg)
            ∨ ∃ forwarder message_id tr0 before,
                forward_email w forwarder message_id tr0 = (Raise e, tr')
                ∧ tr' = before ++ [Printed (error_line w message_id e)]) as Hloop.
  { intros items Hrun.
    destruct (for_each items _ _) as [[[]|e0] tr0] eqn:Hfor; [done|].
    injection Hrun as -> ->.
    apply for_each_records_raise in Hfor as [[msg ->]|(id & tr0 & Hfwd)].
    { left. exists msg. by left. }
    right. eexists _, id, tr0. 
    destruct (forward_email_outcome w (configured endpoint bucket) id tr0)
      as [(e0 & _ & _ & H)
         |(body & _ & [(e0 & _ & H)
                      |[_ [(e0 & _ & _ & H)|(st & rs & _ & [[_ H]|[_ H]])]]])];
      unfold configured in H; rewrite H in Hfwd; [..|done];
      injection Hfwd as <- <-.
    - eexists (_ ++ [_]). split; [exact H|]. by rewrite <- app_assoc.
    - eexists (_ ++ [_; _]). split; [exact H|]. by rewrite <- app_assoc.
    - eexists (_ ++ [_; _]). split; [exact H|]. by rewrite <- app_assoc.
    - eexists (_ ++ [_; _]). split; [exact H|]. by rewrite <- app_assoc. }
  destruct records as [| | |s|items|entries]; cbn; try apply Hloop.
  all: intros [= <- _]; left; eexists; by right.
Qed.

Lemma posted_ids_app (tr1 tr2 : list effect) :
  posted_ids (tr1 ++ tr2) = posted_ids tr1 ++ posted_ids tr2.
Proof. unfold posted_ids, http_requests. by rewrite omap_app, fmap_app. Qed.

Lemma printed_lines_app (tr1 tr2 : list effect) :
  printed_lines (tr1 ++ tr2) = printed_lines tr1 ++ printed_lines tr2.
Proof. apply omap_app. Qed.

(** A call that returns has posted the identifier once and printed at most
    the line of a reported status. *)
Lemma forward_email_return (self : RawEmailForwarder) (message_id : pyval)
    (tr tr' : list effect) :
  forward_email w self message_id tr = (Return (), tr') →
  posted_ids tr' = posted_ids tr ++ [Some message_id]
  ∧ ∃ statuses,
      printed_lines tr' = printed_lines tr ++ (status_line <$> statuses)
      ∧ Forall reported_status statuses.
Proof.
  intros Hrun.
  destruct (forward_email_outcome w self message_id tr)
    as [(e0 & _ & _ & H)
       |(body & Hs3 & [(e0 & _ & H)
                      |[_ [(e0 & _ & _ & H)|(st & rs & Hh & [[_ H]|[Hc H]])]]])];
    rewrite H in Hrun; try done.
  injection Hrun as <-. rewrite !posted_ids_app, !printed_lines_app.
  destruct (st =? 200) eqn:Est; cbn.
  - split; [done|]. exists []. by rewrite !app_nil_r.
  - split; [done|]. exists [st]. split; [done|].
    constructor; [|done]. split; [done|lia].
Qed.

Lemma for_each_records_return (forwarder : RawEmailForwarder) (records : list pyval)
    (tr tr' : list effect) :
  for_each records (handle_record w forwarder) tr = (Return (), tr') →
  posted_ids tr' = posted_ids tr ++ (Some <$> usable_ids records)
  ∧ ∃ statuses,
      printed_lines tr' = printed_lines tr ++ (status_line <$> statuses)
      ∧ Forall reported_status statuses.
Proof.
  revert tr. induction records as [|record rest IH]; intros tr Hrun.
  { injection Hrun as <-. split; [by rewrite app_nil_r|].
    exists []. by rewrite app_nil_r. }
  cbn in Hrun. unfold mbind, M_bind in Hrun. rewrite usable_ids_cons.
  destruct (record_message_id record) as [id|] eqn:Eid.
  - rewrite (handle_record_id w _ _ _ _ Eid) in Hrun.
    destruct (py_truthy id) eqn:Et; [|by apply IH].
    destruct (forward_email w forwarder id tr) as [[[]|e] tr1] eqn:Hfwd; [|done].
    apply forward_email_return in Hfwd as (Hposted & sts1 & Hprinted & Hsts1).
    destruct (IH _ Hrun) as (-> & sts2 & -> & Hsts2).
    rewrite Hposted, Hprinted, <- !app_assoc. split; [done|].
    exists (sts1 ++ sts2). rewrite fmap_app. split; [done|]. by apply Forall_app.
  - destruct (handle_record_malformed w forwarder record tr Eid) as [msg Hbad].
    by rewrite Hbad in Hrun.
Qed.

(** X11: When the handler returns, every usable identifier of the batch was
    posted, once each and in the order of the records, and nothing else was:
    the ids named by the requests of the run are the usable ids.  The only
    lines on the log are those of responses with a status in 201..299. *)
Theorem lambda_handler_return_delivers_all (records : list pyval)
    (context v : pyval) (tr tr' : list effect) :
  lambda_handler w (batch_event records) context tr = (Return v, tr') →
  posted_ids tr' = posted_ids tr ++ (Some <$> usable_ids records)
  ∧ ∃ statuses,
      printed_lines tr' = printed_lines tr ++ (status_line <$> statuses)
      ∧ Forall reported_status statuses.
Proof.
  intros Hrun.
  destruct (environ w !! "API_ENDPOINT") as [endpoint|] eqn:He.
  2: by rewrite (lambda_handler_no_endpoint w _ _ _ He) in Hrun.
  destruct (environ w !! "S3_BUCKET_NAME") as [bucket|] eqn:Hb.
  2: by rewrite (lambda_handler_no_bucket w _ _ _ _ He Hb) in Hrun.
  rewrite (lambda_handler_run w _ _ _ _ _ He Hb) in Hrun.
  destruct (for_each records _ _) as [[[]|e] tr0] eqn:Hloop; [|done].
  injection Hrun as _ <-.
  apply for_each_records_return in Hloop as (Hposted & sts & Hprinted & Hsts).
  rewrite posted_ids_app in Hposted. rewrite printed_lines_app in Hprinted.
  cbn in Hposted, Hprinted. rewrite app_nil_r in Hposted, Hprinted.
  split; [done|]. by exists sts.
Qed.

End LambdaHandlerEdges.

(** * Properties of the report script *)

Section ScirptProperties.

Context {datetime other : Type}.

Variable rt : Scirpt.runtime datetime other.

Local Abbreviation value := (Scirpt.value datetime other).
Local Abbreviation dict := (Scirpt.dict datetime other).
Local Abbreviation Entity := (Scirpt.Entity datetime other).

Lemma dict_get_set (k k' : string) (v : value) (d : dict) :
  Scirpt.dict_get k (Scirpt.dict_set k' v d)
  = if String.eqb k k' then Some v else Scirpt.dict_get k d.
Proof.
  induction d as [|[k0 v0] d IH]; cbn.
  - by destruct (String.eqb k k').
  - destruct (String.eqb_spec k' k0) as [->|Hne]; cbn.
    + by destruct (String.eqb k k0).
    + destruct (String.eqb_spec k k0) as [->|Hne'].
      * destruct (String.eqb_spec k0 k'); [|done]. by subst.
      * done.
Qed.

Lemma dict_get_is_Some (k : string) (d : dict) :
  is_Some (Scirpt.dict_get k d) ↔ k ∈ d.*1.
Proof.
  induction d as [|[k0 v0] d IH]; cbn.
  - rewrite elem_of_nil. split; [by intros [? ?]|done].
  - rewrite elem_of_cons. destruct (String.eqb_spec k k0) as [->|Hne].
    + split; [by left|by eexists].
    + rewrite IH. split; [by right|by intros [?|?]].
Qed.

Lemma dict_get_update (k : string) (d : dict) (entries : list (string * value)) :
  NoDup entries.*1 →
  Scirpt.dict_get k (Scirpt.dict_update d entries)
  = match Scirpt.dict_get k entries with
    | Some v => Some v
    | None => Scirpt.dict_get k d
    end.
Proof.
  unfold Scirpt.dict_update. revert d.
  induction entries as [|[k1 v1] entries IH]; intros d Hnd; [done|].
  apply NoDup_cons in Hnd as [Hk1 Hnd]. cbn. rewrite (IH _ Hnd), dict_get_set.
  destruct (String.eqb_spec k k1) as [->|Hne]; [|done].
  destruct (Scirpt.dict_get k1 entries) as [v|] eqn:E; [|done].
  destruct Hk1. apply dict_get_is_Some. by eexists.
Qed.

Lemma dict_update_head (k0 : string) (v0 : value) (d : dict)
    (entries : list (string * value)) :
  ∃ v rest, Scirpt.dict_update ((k0, v0) :: d) entries = (k0, v) :: rest.
Proof.
  unfold Scirpt.dict_update. revert v0 d.
  induction entries as [|[k1 v1] entries IH]; intros v0 d; [by eexists _, _|].
  cbn. destruct (String.eqb_spec k1 k0) as [->|Hne]; apply IH.
Qed.

(** X12: The name of a property plays no part in its formatting: a datetime is
    converted to Japan time under any name, and a value of another type is
    left as it is, even under a name that contains "time". *)
Theorem format_value_ignores_name (k : string) (v : value) :
  Scirpt.format_value rt k v = Scirpt.to_japan_time rt v
  ∧ (Scirpt.isinstance_datetime v = false → Scirpt.format_value rt k v = Some v)
  ∧ (∀ dt, v = Scirpt.Datetime dt →
           Scirpt.format_value rt k v
           = Scirpt.Datetime <$> Scirpt.astimezone_JST rt dt).
Proof.
  unfold Scirpt.format_value.
  split_and!.
  - destruct v; cbn; [by rewrite orb_true_r|by destruct (occurs _ _)..].
  - intros Hv. destruct v; [done|by destruct (occurs _ _)..].
  - intros dt ->. cbn. by rewrite orb_true_r.
Qed.

Lemma mapM_format_keys (entries formatted : list (string * value)) :
  mapM (λ kv, v ← Scirpt.format_value rt kv.1 kv.2; Some (kv.1, v)) entries
  = Some formatted →
  formatted.*1 = entries.*1
  ∧ ∀ k v, (k, v) ∈ entries →
           ∃ v', Scirpt.format_value rt k v = Some v' ∧ (k, v') ∈ formatted.
Proof.
  intros H. apply mapM_Some in H.
  induction H as [|[k v] [k' v'] entries formatted Hkv _ [IH1 IH2]].
  { split; [done|]. intros k v Hin. by apply elem_of_nil in Hin. }
  cbn in Hkv. destruct (Scirpt.format_value rt k v) as [v0|] eqn:E; [|done].
  cbn in Hkv. injection Hkv as <- <-. split; [cbn; by f_equal|].
  intros k1 v1 [[= -> ->]|Hin]%elem_of_cons.
  - exists v0. split; [done|]. by left.
  - destruct (IH2 _ _ Hin) as (v2 & ? & ?). exists v2. split; [done|]. by right.
Qed.

Lemma dict_get_elem_of (k : string) (v : value) (d : dict) :
  NoDup d.*1 → (k, v) ∈ d → Scirpt.dict_get k d = Some v.
Proof.
  induction d as [|[k0 v0] d IH]; intros Hnd Hin.
  { by apply elem_of_nil in Hin. }
  cbn in Hnd. apply NoDup_cons in Hnd as [Hk0 Hnd]. cbn.
  apply elem_of_cons in Hin as [[= -> ->]|Hin].
  - by rewrite String.eqb_refl.
  - destruct (String.eqb_spec k k0) as [->|Hne]; [|by apply IH].
    destruct Hk0. apply list_elem_of_fmap. by exists (k0, v).
Qed.

Lemma filter_agree {A} (P Q : A → Prop) `{!∀ x, Decision (P x)}
    `{!∀ x, Decision (Q x)} (l : list A) :
  (∀ x, x ∈ l → P x ↔ Q x) → filter P l = filter Q l.
Proof.
  induction l as [|x l IH]; intros Hagree; [done|].
  rewrite !filter_cons, IH.
  - destruct (decide (P x)) as [HP|HP], (decide (Q x)) as [HQ|HQ]; try done.
    + destruct HQ. apply Hagree; [by left|done].
    + destruct HP. apply Hagree; [by left|done].
  - intros y Hy. apply Hagree. by right.
Qed.

Lemma dict_set_keys (k : string) (v : value) (d : dict) :
  (Scirpt.dict_set k v d).*1 = if decide (k ∈ d.*1) then d.*1 else d.*1 ++ [k].
Proof.
  induction d as [|[k0 v0] d IH]; cbn.
  - by rewrite decide_False by apply not_elem_of_nil.
  - destruct (String.eqb_spec k k0) as [->|Hne]; cbn.
    + by rewrite decide_True by by left.
    + rewrite IH. destruct (decide (k ∈ d.*1)) as [Hin|Hout].
      * by rewrite decide_True by by right.
      * rewrite decide_False; [done|]. by intros [?|?]%elem_of_cons.
Qed.

(** The keys of [{**d, k1: v1, ...}]: those of [d], then the new ones. *)
Lemma dict_update_keys (d : dict) (entries : list (string * value)) :
  NoDup entries.*1 →
  (Scirpt.dict_update d entries).*1 = d.*1 ++ filter (λ k, k ∉ d.*1) entries.*1.
Proof.
  unfold Scirpt.dict_update. revert d.
  induction entries as [|[k v] entries IH]; intros d Hnd.
  { cbn. by rewrite app_nil_r. }
  cbn in Hnd. apply NoDup_cons in Hnd as [Hk Hnd].
  cbn [foldl fmap list_fmap fst snd]. rewrite (IH _ Hnd), dict_set_keys.
  destruct (decide (k ∈ d.*1)) as [Hin|Hout].
  - by rewrite filter_cons_False by by intros ?.
  - rewrite filter_cons_True by done. rewrite <- app_assoc. cbn. do 2 f_equal.
    apply filter_agree. intros k' Hk'. rewrite elem_of_app, list_elem_of_singleton.
    split; [by intros Hno ?; apply Hno; left|].
    intros Hno [Hd|Heq]; [done|]. by subst.
Qed.

(** X13: The row of an entity whose conversions succeed.  Its columns are
    "ID/Name" and then, in the order of the properties, one column per
    property not called "ID/Name", and no column twice; the column of a
    property holds its formatted value; the "ID/Name" column holds the id
    or name of the key, unless the entity has a property of that very
    name, whose value then takes the place of the key's. *)
Theorem row_columns (entity : Entity) (r : dict) :
  NoDup (Scirpt.items entity).*1 →
  Scirpt.row rt entity = Some r →
  r.*1 = "ID/Name" :: filter (λ k, k ≠ "ID/Name") (Scirpt.items entity).*1
  ∧ NoDup r.*1
  ∧ (∃ v rest, r = ("ID/Name", v) :: rest)
  ∧ (∀ k, k ∈ r.*1 ↔ k = "ID/Name" ∨ k ∈ (Scirpt.items entity).*1)
  ∧ (∀ k v, (k, v) ∈ Scirpt.items entity →
            ∃ v', Scirpt.format_value rt k v = Some v'
                  ∧ Scirpt.dict_get k r = Some v')
  ∧ ("ID/Name" ∉ (Scirpt.items entity).*1 →
     Scirpt.dict_get "ID/Name" r = Some (Scirpt.id_or_name entity)).
Proof.
  intros Hnd Hrow. unfold Scirpt.row in Hrow.
  destruct (mapM _ (Scirpt.items entity)) as [formatted|] eqn:Hfmt; [|done].
  cbn in Hrow. injection Hrow as <-.
  destruct (mapM_format_keys _ _ Hfmt) as [Hkeys Hvals].
  assert (NoDup formatted.*1) as Hnd' by by rewrite Hkeys.
  assert ((Scirpt.dict_update [] formatted).*1 = formatted.*1) as Hinner_keys.
  { rewrite (dict_update_keys _ _ Hnd'). cbn.
    clear Hnd' Hkeys Hvals Hfmt. generalize (formatted.*1). intros l.
    induction l as [|k l IH]; [done|].
    rewrite filter_cons_True by apply not_elem_of_nil. by rewrite IH. }
  assert (NoDup (Scirpt.dict_update [] formatted).*1) as Hnd''
    by by rewrite Hinner_keys.
  assert ((Scirpt.dict_update [("ID/Name", Scirpt.id_or_name entity)]
             (Scirpt.dict_update [] formatted)).*1
          = "ID/Name" :: filter (λ k, k ≠ "ID/Name") (Scirpt.items entity).*1)
    as Hrow_keys.
  { rewrite (dict_update_keys _ _ Hnd''), Hinner_keys, Hkeys. cbn. f_equal.
    apply list_filter_iff. intros k. by rewrite list_elem_of_singleton. }
  assert (∀ k, Scirpt.dict_get k (Scirpt.dict_update [] formatted)
               = Scirpt.dict_get k formatted) as Hinner.
  { intros k. rewrite (dict_get_update _ _ _ Hnd').
    by destruct (Scirpt.dict_get k formatted). }
  assert (∀ k, Scirpt.dict_get k
                 (Scirpt.dict_update [("ID/Name", Scirpt.id_or_name entity)]
                    (Scirpt.dict_update [] formatted))
               = match Scirpt.dict_get k formatted with
                 | Some v => Some v
                 | None => if String.eqb k "ID/Name"
                           then Some (Scirpt.id_or_name entity) else None
                 end) as Hget.
  { intros k. rewrite (dict_get_update _ _ _ Hnd''), Hinner. done. }
  split_and!.
  - done.
  - rewrite Hrow_keys. apply NoDup_cons. split.
    + rewrite list_elem_of_filter. by intros [? _].
    + by apply NoDup_filter.
  - apply dict_update_head.
  - intros k. rewrite <- dict_get_is_Some, Hget, <- Hkeys, <- dict_get_is_Some.
    destruct (Scirpt.dict_get k formatted) as [v|].
    + split; [right|]; by eexists.
    + destruct (String.eqb_spec k "ID/Name") as [->|Hne].
      * split; [by left|by eexists].
      * split; [by intros [? ?]|]. intros [?|[? ?]]; done.
  - intros k v Hin. destruct (Hvals _ _ Hin) as (v' & Hv' & Hin').
    exists v'. split; [done|].
    by rewrite Hget, (dict_get_elem_of _ _ _ Hnd' Hin').
  - intros Hno. rewrite Hget.
    destruct (Scirpt.dict_get "ID/Name" formatted) as [v|] eqn:E; [|done].
    destruct Hno. rewrite <- Hkeys. apply dict_get_is_Some. by eexists.
Qed.

Lemma headers_NoDup (rows : list dict) : NoDup (Scirpt.headers rows).
Proof.
  unfold Scirpt.headers. rewrite merge_sort_Permutation. apply NoDup_remove_dups.
Qed.

Lemma headers_elem_of (rows : list dict) (k : string) :
  k ∈ Scirpt.headers rows ↔ ∃ r, r ∈ rows ∧ k ∈ r.*1.
Proof.
  unfold Scirpt.headers.
  rewrite merge_sort_Permutation, elem_of_remove_dups, list_elem_of_bind.
  split; intros (r & ? & ?); by exists r.
Qed.

Lemma headers_Sorted (rows : list dict) : Sorted String.le (Scirpt.headers rows).
Proof. apply (Sorted_merge_sort _). Qed.

Lemma headers_reordered (rows reordered : list dict) :
  reordered ≡ₚ rows → Scirpt.headers reordered = Scirpt.headers rows.
Proof.
  intros Hperm.
  apply (Sorted_unique String.le); [apply headers_Sorted..|].
  apply NoDup_Permutation; [apply headers_NoDup..|].
  intros k. rewrite !headers_elem_of. by setoid_rewrite Hperm.
Qed.

(** X14: The headers of the table are the names that occur as a column of some
    row, each once, in increasing order; they do not depend on the order of
    the rows. *)
Theorem headers_sorted_distinct (formatted_results : list dict) :
  Sorted String.le (Scirpt.headers formatted_results)
  ∧ NoDup (Scirpt.headers formatted_results)
  ∧ (∀ k, k ∈ Scirpt.headers formatted_results
          ↔ ∃ r, r ∈ formatted_results ∧ k ∈ r.*1)
  ∧ (∀ reordered, reordered ≡ₚ formatted_results →
                  Scirpt.headers reordered = Scirpt.headers formatted_results).
Proof.
  split_and!.
  - apply headers_Sorted.
  - apply headers_NoDup.
  - apply headers_elem_of.
  - intros reordered. apply headers_reordered.
Qed.

(** X16: The script as a whole, when there are entities, their conversions
    succeed and the sort hands the rows back in some order: it prints the
    grid of a table that has one line per entity and whose headers,
    "ID/Name" among them, are those of the rows as they were before the
    sort. *)
Theorem script_prints_table (results : list Entity) (rows sorted : list dict) :
  results ≠ [] →
  mapM (Scirpt.row rt) results = Some rows →
  Scirpt.list_sort rt (Scirpt.sort_key rt) rows = Some sorted →
  sorted ≡ₚ rows →
  Scirpt.script rt results
  = Some (Scirpt.tabulate rt (Scirpt.table_data sorted (Scirpt.headers rows))
            (Scirpt.headers rows) "grid")
  ∧ length (Scirpt.table_data sorted (Scirpt.headers rows)) = length results
  ∧ "ID/Name" ∈ Scirpt.headers rows.
Proof.
  intros Hne Hrows Hsort Hperm. split_and!.
  - destruct results as [|entity results]; [done|].
    unfold Scirpt.script. rewrite Hrows. cbn. rewrite Hsort. cbn.
    by rewrite (headers_reordered _ _ Hperm).
  - unfold Scirpt.table_data. rewrite length_fmap, Hperm.
    apply mapM_Some in Hrows. symmetry. by eapply Forall2_length.
  - apply headers_elem_of. apply mapM_Some in Hrows.
    destruct Hrows as [|entity r results rows Hr _]; [done|].
    exists r. split; [by left|].
    unfold Scirpt.row in Hr.
    destruct (mapM _ (Scirpt.items entity)) as [formatted|]; [|done].
    cbn in Hr. injection Hr as <-.
    destruct (dict_update_head "ID/Name" (Scirpt.id_or_name entity) []
                (Scirpt.dict_update [] formatted)) as (v & rest & ->).
    by left.
Qed.

End ScirptProperties.

(** * Concrete runs *)

(** One message delivered: the endpoint answers 200. *)
Lemma forward_email_delivers_witness :
  forward_email (sample_world (store_with ["m1"]) (Responded 200 "OK"))
    sample_forwarder (PStr "m1") []
  = (Return (),
     [] ++ [GetObject "inbound-mail" "m1";
            Urlopen {| url := "https://api.example.com/mail";
                       data := sample_mail;
                       method := "POST";
                       headers := [("X-Message-ID", PStr "m1")] |} 300]).
Proof.
  apply (forward_email_delivers
           (sample_world (store_with ["m1"]) (Responded 200 "OK"))
           sample_forwarder "m1" sample_mail "OK" []); reflexivity.
Defined.

(** C2 does not hold for every identifier.  The object is in the store and
    the endpoint answers 200, but the identifier has a character outside
    latin-1 in it: http.client cannot write it as a header, so that
    [forward_email] logs a [UnicodeEncodeError] and raises it instead of
    returning, and nothing is posted to the endpoint.  ([m€] is written
    here as its UTF-8 bytes.) *)
Lemma forward_email_unwritable_id_raises :
  s3_get_object
    (sample_world (store_with [unwritable_id]) (Responded 200 "OK"))
    [] "inbound-mail" unwritable_id
  = S3Object sample_mail
  ∧ http_endpoint
      (sample_world (store_with [unwritable_id]) (Responded 200 "OK"))
      [GetObject "inbound-mail" unwritable_id]
      (post_request sample_forwarder (PStr unwritable_id) sample_mail) 300
    = Responded 200 "OK"
  ∧ code_points unwritable_id = [109; 8364]%N
  ∧ forward_email
      (sample_world (store_with [unwritable_id]) (Responded 200 "OK"))
      sample_forwarder (PStr unwritable_id) []
    = (Raise (UnicodeEncodeError
                "'latin-1' codec can't encode character '\u20ac' in position 1: ordinal not in range(256)"),
       [GetObject "inbound-mail" unwritable_id;
        Urlopen (post_request sample_forwarder (PStr unwritable_id) sample_mail) 300;
        Printed ("Error processing message " +:+ unwritable_id
                 +:+ ": 'latin-1' codec can't encode character '\u20ac' in position 1: ordinal not in range(256)")]).
Proof.
  split_and!; vm_compute; reflexivity.
Qed.

(** The object is not in the store. *)
Lemma forward_email_storage_failure_witness :
  ∃ e, StorageFetchError e = true
     ∧ forward_email (sample_world (store_with []) (Responded 200 "OK"))
         sample_forwarder (PStr "m1") []
       = (Raise e,
          [] ++ [GetObject "inbound-mail" "m1";
                 Printed ("Error processing message " +:+ "m1" +:+ ": " +:+ exn_str e)])
     ∧ http_requests
         (forward_email (sample_world (store_with []) (Responded 200 "OK"))
            sample_forwarder (PStr "m1") []).2
       = http_requests [].
Proof.
  apply (forward_email_storage_failure
           (sample_world (store_with []) (Responded 200 "OK"))
           sample_forwarder "m1" []).
  intros body. vm_compute. discriminate.
Defined.

(** No response within the timeout. *)
Lemma forward_email_network_failure_witness :
  ∃ e, NetworkError e = true
     ∧ urlopen (sample_world (store_with ["m1"]) ResponseTimedOut)
         (post_request sample_forwarder (PStr "m1") sample_mail) 300
         ([] ++ [GetObject "inbound-mail" "m1"])
       = (Raise e,
          [] ++ [GetObject "inbound-mail" "m1";
                 Urlopen (post_request sample_forwarder (PStr "m1") sample_mail) 300])
     ∧ forward_email (sample_world (store_with ["m1"]) ResponseTimedOut)
         sample_forwarder (PStr "m1") []
       = (Raise e,
          [] ++ [GetObject "inbound-mail" "m1";
                 Urlopen (post_request sample_forwarder (PStr "m1") sample_mail) 300;
                 Printed ("Error processing message " +:+ "m1" +:+ ": " +:+ exn_str e)]).
Proof.
  apply (forward_email_network_failure
           (sample_world (store_with ["m1"]) ResponseTimedOut)
           sample_forwarder "m1" sample_mail []).
  - reflexivity.
  - reflexivity.
  - intros status reason. vm_compute. discriminate.
Defined.

(** C6 does not hold for every identifier.  The object is read and the
    endpoint cannot be reached, but the identifier has a line feed in it:
    http.client refuses to write it as a header, before it connects, and
    what [forward_email] logs and raises is that [ValueError], which is no
    network error. *)
Lemma forward_email_unreachable_not_network_error :
  s3_get_object
    (sample_world (store_with ["a" +:+ String (ascii_of_N 10) "b"])
       (ConnectionFailed "[Errno 111] Connection refused"))
    [] "inbound-mail" ("a" +:+ String (ascii_of_N 10) "b")
  = S3Object sample_mail
  ∧ http_endpoint
      (sample_world (store_with ["a" +:+ String (ascii_of_N 10) "b"])
         (ConnectionFailed "[Errno 111] Connection refused"))
      [GetObject "inbound-mail" ("a" +:+ String (ascii_of_N 10) "b")]
      (post_request sample_forwarder (PStr ("a" +:+ String (ascii_of_N 10) "b"))
         sample_mail) 300
    = ConnectionFailed "[Errno 111] Connection refused"
  ∧ forward_email
      (sample_world (store_with ["a" +:+ String (ascii_of_N 10) "b"])
         (ConnectionFailed "[Errno 111] Connection refused"))
      sample_forwarder (PStr ("a" +:+ String (ascii_of_N 10) "b")) []
    = (Raise (ValueError "Invalid header value b'a\nb'"),
       [GetObject "inbound-mail" ("a" +:+ String (ascii_of_N 10) "b");
        Urlopen (post_request sample_forwarder
                   (PStr ("a" +:+ String (ascii_of_N 10) "b")) sample_mail) 300;
        Printed ("Error processing message a" +:+ String (ascii_of_N 10) "b"
                 +:+ ": Invalid header value b'a\nb'")])
  ∧ NetworkError (ValueError "Invalid header value b'a\nb'") = false.
Proof.
  split_and!; vm_compute; reflexivity.
Qed.

(** The endpoint answers 201: a line with the status, and a normal return. *)
Lemma forward_email_rejected_witness :
  urlopen (sample_world (store_with ["m1"]) (Responded 201 "Created"))
    (post_request sample_forwarder (PStr "m1") sample_mail) 300
    ([] ++ [GetObject "inbound-mail" "m1"])
  = (Return {| status := 201 |},
     [] ++ [GetObject "inbound-mail" "m1";
            Urlopen (post_request sample_forwarder (PStr "m1") sample_mail) 300])
  ∧ forward_email (sample_world (store_with ["m1"]) (Responded 201 "Created"))
      sample_forwarder (PStr "m1") []
    = (Return (),
       [] ++ [GetObject "inbound-mail" "m1";
              Urlopen (post_request sample_forwarder (PStr "m1") sample_mail) 300;
              Printed ("API error status code: " +:+ pretty 201)]).
Proof.
  apply (forward_email_rejected
           (sample_world (store_with ["m1"]) (Responded 201 "Created"))
           sample_forwarder "m1" sample_mail 201 "Created" []);
    [reflexivity | reflexivity | reflexivity | lia | lia].
Defined.

(** C1 as stated fails.  The object is read and the endpoint answers 500:
    [urlopen] raises [HTTPError], and [forward_email] logs it and raises it
    again instead of returning.  And when the endpoint answers 201 the one
    line logged has the status code in it but not the identifier. *)
Lemma forward_email_status_500_raises :
  s3_get_object (sample_world (store_with ["m1"]) (Responded 500 "Internal Server Error"))
    [] "inbound-mail" "m1" = S3Object sample_mail
  ∧ http_endpoint
      (sample_world (store_with ["m1"]) (Responded 500 "Internal Server Error"))
      [GetObject "inbound-mail" "m1"]
      (post_request sample_forwarder (PStr "m1") sample_mail) 300
    = Responded 500 "Internal Server Error"
  ∧ forward_email
      (sample_world (store_with ["m1"]) (Responded 500 "Internal Server Error"))
      sample_forwarder (PStr "m1") []
    = (Raise (HTTPError 500 "Internal Server Error"),
       [GetObject "inbound-mail" "m1";
        Urlopen (post_request sample_forwarder (PStr "m1") sample_mail) 300;
        Printed "Error processing message m1: HTTP Error 500: Internal Server Error"])
  ∧ printed_lines
      (forward_email (sample_world (store_with ["m1"]) (Responded 201 "Created"))
         sample_forwarder (PStr "m1") []).2
    = ["API error status code: 201"]
  ∧ occurs "201" "API error status code: 201" = true
  ∧ occurs "m1" "API error status code: 201" = false.
Proof.
  split_and!; vm_compute; reflexivity.
Qed.

(** A batch of two records where the object of the first is missing: the
    error of "m1" leaves the handler and "m2" is never read. *)
Lemma lambda_handler_stops_at_first_error_witness :
  lambda_handler (sample_world (store_with ["m2"]) (Responded 200 "OK"))
    (batch_event ([] ++ ses_record (PStr "m1") :: [ses_record (PStr "m2")])) PNone []
  = (Raise (ClientError "NoSuchKey" "The specified key does not exist."),
     startup_events
       ++ [GetObject "inbound-mail" "m1";
           Printed "Error processing message m1: An error occurred (NoSuchKey) when calling the GetObject operation: The specified key does not exist."])
  ∧ get_object_keys
      (startup_events
         ++ [GetObject "inbound-mail" "m1";
             Printed "Error processing message m1: An error occurred (NoSuchKey) when calling the GetObject operation: The specified key does not exist."])
    = get_object_keys startup_events
        ++ [fstring (sample_world (store_with ["m2"]) (Responded 200 "OK")) (PStr "m1")].
Proof.
  apply (lambda_handler_stops_at_first_error
           (sample_world (store_with ["m2"]) (Responded 200 "OK"))
           "https://api.example.com/mail" "inbound-mail"
           [] [ses_record (PStr "m2")] (ses_record (PStr "m1")) (PStr "m1") PNone
           (ClientError "NoSuchKey" "The specified key does not exist.")
           [] startup_events); reflexivity.
Defined.

(** The batch [{m1}, {}, {m2}] with both objects in the store: the handler
    returns, having read "m1" then "m2" and nothing else. *)
Lemma lambda_handler_forwards_usable_ids_witness :
  lambda_handler (sample_world (store_with ["m1"; "m2"]) (Responded 200 "OK"))
    (batch_event sample_records) PNone []
  = (Return acknowledgement,
     [Boto3Client "s3"; EnvRead "API_ENDPOINT"; EnvRead "S3_BUCKET_NAME";
      GetObject "inbound-mail" "m1";
      Urlopen (post_request sample_forwarder (PStr "m1") sample_mail) 300;
      GetObject "inbound-mail" "m2";
      Urlopen (post_request sample_forwarder (PStr "m2") sample_mail) 300])
  ∧ (∀ record tr0,
       record ∈ sample_records →
       usable_ids [record] = [] →
       handle_record (sample_world (store_with ["m1"; "m2"]) (Responded 200 "OK"))
         sample_forwarder record tr0 = (Return (), tr0))
  ∧ (∀ v tr',
       lambda_handler (sample_world (store_with ["m1"; "m2"]) (Responded 200 "OK"))
         (batch_event sample_records) PNone [] = (Return v, tr') →
       get_object_keys tr'
       = get_object_keys []
           ++ (fstring (sample_world (store_with ["m1"; "m2"]) (Responded 200 "OK"))
                 <$> usable_ids sample_records))
  ∧ (∀ id tr0,
       get_object_keys
         (forward_email (sample_world (store_with ["m1"; "m2"]) (Responded 200 "OK"))
            sample_forwarder id tr0).2
       = get_object_keys tr0
           ++ [fstring (sample_world (store_with ["m1"; "m2"]) (Responded 200 "OK")) id])
  ∧ usable_ids sample_records = [PStr "m1"; PStr "m2"].
Proof.
  apply (lambda_handler_forwards_usable_ids
           (sample_world (store_with ["m1"; "m2"]) (Responded 200 "OK"))
           "https://api.example.com/mail" "inbound-mail" sample_records PNone []).
  - reflexivity.
  - reflexivity.
  - repeat (constructor; [by eexists|]). constructor.
Defined.

(** C5 does not hold as stated.  A record whose [ses] is null carries no
    usable identifier, yet it is not passed over: the handler raises
    [AttributeError] on it, and the record after it, which carries "m2", is
    never forwarded.  And in a batch of two records with usable
    identifiers of which the first is not in the store, [forward_email] is
    not called for the second. *)
Lemma lambda_handler_null_ses_raises :
  usable_ids [ses_record (PStr "m1"); PDict [("ses", PNone)]; ses_record (PStr "m2")]
  = [PStr "m1"; PStr "m2"]
  ∧ lambda_handler (sample_world (store_with ["m1"; "m2"]) (Responded 200 "OK"))
      (batch_event
         [ses_record (PStr "m1"); PDict [("ses", PNone)]; ses_record (PStr "m2")])
      PNone []
    = (Raise (AttributeError "'NoneType' object has no attribute 'get'"),
       [Boto3Client "s3"; EnvRead "API_ENDPOINT"; EnvRead "S3_BUCKET_NAME";
        GetObject "inbound-mail" "m1";
        Urlopen (post_request sample_forwarder (PStr "m1") sample_mail) 300])
  ∧ usable_ids [ses_record (PStr "m1"); ses_record (PStr "m2")]
    = [PStr "m1"; PStr "m2"]
  ∧ get_object_keys
      (lambda_handler (sample_world (store_with ["m2"]) (Responded 200 "OK"))
         (batch_event [ses_record (PStr "m1"); ses_record (PStr "m2")]) PNone []).2
    = ["m1"].
Proof.
  split_and!; vm_compute; reflexivity.
Qed.

Example sample_records_usable_ids :
  usable_ids sample_records = [PStr "m1"; PStr "m2"].
Proof. reflexivity. Qed.

Example sample_records_reads :
  get_object_keys
    (lambda_handler (sample_world (store_with ["m1"; "m2"]) (Responded 200 "OK"))
       (batch_event sample_records) PNone []).2
  = ["m1"; "m2"].
Proof. vm_compute. reflexivity. Qed.

(** The same batch, acknowledged. *)
Lemma lambda_handler_acknowledges_witness :
  (∀ tr', for_each sample_records (handle_record
                  (sample_world (store_with ["m1"; "m2"]) (Responded 200 "OK"))
                  (configured "https://api.example.com/mail" "inbound-mail"))
            ([] ++ startup_events) = (Return (), tr') →
          lambda_handler (sample_world (store_with ["m1"; "m2"]) (Responded 200 "OK"))
            (batch_event sample_records) PNone []
          = (Return acknowledgement, tr'))
  ∧ (∀ pre record post id e tr1 tr2,
       sample_records = pre ++ record :: post →
       for_each pre (handle_record
                       (sample_world (store_with ["m1"; "m2"]) (Responded 200 "OK"))
                       (configured "https://api.example.com/mail" "inbound-mail"))
         ([] ++ startup_events) = (Return (), tr1) →
       record_message_id record = Some id →
       py_truthy id = true →
       forward_email (sample_world (store_with ["m1"; "m2"]) (Responded 200 "OK"))
         (configured "https://api.example.com/mail" "inbound-mail") id tr1
       = (Raise e, tr2) →
       (lambda_handler (sample_world (store_with ["m1"; "m2"]) (Responded 200 "OK"))
          (batch_event sample_records) PNone []).1 = Raise e)
  ∧ (∀ event v tr',
       lambda_handler (sample_world (store_with ["m1"; "m2"]) (Responded 200 "OK"))
         event PNone [] = (Return v, tr') →
       v = acknowledgement).
Proof.
  apply (lambda_handler_acknowledges
           (sample_world (store_with ["m1"; "m2"]) (Responded 200 "OK"))
           "https://api.example.com/mail" "inbound-mail" sample_records PNone []);
    reflexivity.
Defined.

Example sample_records_acknowledged :
  (lambda_handler (sample_world (store_with ["m1"; "m2"]) (Responded 200 "OK"))
     (batch_event sample_records) PNone []).1
  = Return (PDict [("statusCode", PInt 200)]).
Proof. vm_compute. reflexivity. Qed.

(** The configuration of that run: read once, first, and used throughout. *)
Lemma lambda_handler_configuration_witness :
  ∃ rest,
    [Boto3Client "s3"; EnvRead "API_ENDPOINT"; EnvRead "S3_BUCKET_NAME";
     GetObject "inbound-mail" "m1";
     Urlopen (post_request sample_forwarder (PStr "m1") sample_mail) 300;
     GetObject "inbound-mail" "m2";
     Urlopen (post_request sample_forwarder (PStr "m2") sample_mail) 300]
    = [] ++ startup_events ++ rest
    ∧ env_reads rest = []
    ∧ Forall (forwarder_event (configured "https://api.example.com/mail" "inbound-mail"))
        rest.
Proof.
  exact (lambda_handler_configuration
           (sample_world (store_with ["m1"; "m2"]) (Responded 200 "OK"))
           (batch_event sample_records) PNone [] _ _ eq_refl).
Defined.

(** A world without [S3_BUCKET_NAME]: the handler fails in [__init__]. *)
Example lambda_handler_without_bucket :
  lambda_handler
    {| environ := {[ "API_ENDPOINT" := "https://api.example.com/mail" ]};
       s3_get_object := λ _ _ Key, store_with ["m1"; "m2"] Key;
       http_endpoint := λ _ _ _, Responded 200 "OK";
       py_str := sample_py_str |}
    (batch_event sample_records) PNone []
  = (Raise (KeyError "S3_BUCKET_NAME"), startup_events).
Proof. vm_compute. reflexivity. Qed.

(** A record with an empty message id between two good ones. *)
Lemma lambda_handler_skips_empty_id_witness :
  handle_record (sample_world (store_with ["m1"; "m2"]) (Responded 200 "OK"))
    sample_forwarder (ses_record (PStr "")) [] = (Return (), [])
  ∧ handle_record (sample_world (store_with ["m1"; "m2"]) (Responded 200 "OK"))
      sample_forwarder (ses_record (PStr "")) []
    = handle_record (sample_world (store_with ["m1"; "m2"]) (Responded 200 "OK"))
        sample_forwarder (PDict []) []
  ∧ lambda_handler (sample_world (store_with ["m1"; "m2"]) (Responded 200 "OK"))
      (batch_event ([ses_record (PStr "m1")] ++ ses_record (PStr "")
                      :: [ses_record (PStr "m2")])) PNone []
    = lambda_handler (sample_world (store_with ["m1"; "m2"]) (Responded 200 "OK"))
        (batch_event ([ses_record (PStr "m1")] ++ [ses_record (PStr "m2")])) PNone []
  ∧ ∀ records r tr',
      lambda_handler (sample_world (store_with ["m1"; "m2"]) (Responded 200 "OK"))
        (batch_event records) PNone [] = (r, tr') →
      ∃ invoked,
        invoked `prefix_of` usable_ids records
        ∧ get_object_keys tr'
          = get_object_keys []
              ++ (fstring (sample_world (store_with ["m1"; "m2"]) (Responded 200 "OK"))
                    <$> invoked)
        ∧ (PStr "" ∉ usable_ids records)
        ∧ (PStr "" ∉ invoked).
Proof.
  apply (lambda_handler_skips_empty_id
           (sample_world (store_with ["m1"; "m2"]) (Responded 200 "OK"))
           sample_forwarder (ses_record (PStr "")) PNone
           [ses_record (PStr "m1")] [ses_record (PStr "m2")] []).
  reflexivity.
Defined.

(** * Further concrete runs *)

(** The endpoint answers 404. *)
Lemma forward_email_http_error_witness :
  forward_email (sample_world (store_with ["m1"]) (Responded 404 "Not Found"))
    sample_forwarder (PStr "m1") []
  = (Raise (HTTPError 404 "Not Found"),
     [] ++ [GetObject "inbound-mail" "m1";
            Urlopen (post_request sample_forwarder (PStr "m1") sample_mail) 300;
            Printed ("Error processing message " +:+ "m1"
                     +:+ ": HTTP Error " +:+ pretty 404 +:+ ": " +:+ "Not Found")]).
Proof.
  apply (forward_email_http_error
           (sample_world (store_with ["m1"]) (Responded 404 "Not Found"))
           sample_forwarder (PStr "m1") sample_mail 404 "Not Found" []);
    [reflexivity | reflexivity | reflexivity | lia].
Defined.

(** The object is missing: the line that reports it is the last thing done. *)
Lemma forward_email_raise_is_logged_witness :
  ∃ before,
    [GetObject "inbound-mail" "m1";
     Printed "Error processing message m1: An error occurred (NoSuchKey) when calling the GetObject operation: The specified key does not exist."]
    = before
        ++ [Printed (error_line (sample_world (store_with []) (Responded 200 "OK"))
                       (PStr "m1")
                       (ClientError "NoSuchKey" "The specified key does not exist."))]
    ∧ printed_lines before = printed_lines [].
Proof.
  apply (forward_email_raise_is_logged
           (sample_world (store_with []) (Responded 200 "OK"))
           sample_forwarder (PStr "m1")
           (ClientError "NoSuchKey" "The specified key does not exist.") []).
  reflexivity.
Defined.

(** An identifier that is a list: the object named by its text is read, and
    the request fails on the header. *)
Lemma forward_email_unwritable_id_witness :
  forward_email (sample_world (store_with ["['m1']"]) (Responded 200 "OK"))
    sample_forwarder (PList [PStr "m1"]) []
  = (Raise (TypeError "expected string or bytes-like object, got 'list'"),
     [] ++ [GetObject "inbound-mail" "['m1']";
            Urlopen (post_request sample_forwarder (PList [PStr "m1"]) sample_mail) 300;
            Printed ("Error processing message " +:+ "['m1']" +:+ ": "
                     +:+ "expected string or bytes-like object, got 'list'")]).
Proof.
  apply (forward_email_unwritable_id
           (sample_world (store_with ["['m1']"]) (Responded 200 "OK"))
           sample_forwarder (PList [PStr "m1"]) sample_mail
           (TypeError "expected string or bytes-like object, got 'list'") []);
    reflexivity.
Defined.

(** A delivery answered with 204. *)
Lemma forward_email_return_is_delivery_witness :
  ∃ body status reason,
    s3_get_object (sample_world (store_with ["m1"]) (Responded 204 "No Content"))
      [] (bucket_name sample_forwarder)
      (fstring (sample_world (store_with ["m1"]) (Responded 204 "No Content"))
         (PStr "m1"))
    = S3Object body
    ∧ http_endpoint (sample_world (store_with ["m1"]) (Responded 204 "No Content"))
        ([] ++ [GetObject (bucket_name sample_forwarder)
                  (fstring (sample_world (store_with ["m1"]) (Responded 204 "No Content"))
                     (PStr "m1"))])
        (post_request sample_forwarder (PStr "m1") body) 300
      = Responded status reason
    ∧ 200 ≤ status < 300
    ∧ http_requests
        [GetObject "inbound-mail" "m1";
         Urlopen (post_request sample_forwarder (PStr "m1") sample_mail) 300;
         Printed "API error status code: 204"]
      = http_requests [] ++ [post_request sample_forwarder (PStr "m1") body]
    ∧ printed_lines
        [GetObject "inbound-mail" "m1";
         Urlopen (post_request sample_forwarder (PStr "m1") sample_mail) 300;
         Printed "API error status code: 204"]
      = printed_lines [] ++ (if status =? 200 then [] else [status_line status]).
Proof.
  apply (forward_email_return_is_delivery
           (sample_world (store_with ["m1"]) (Responded 204 "No Content"))
           sample_forwarder (PStr "m1") []).
  reflexivity.
Defined.

(** An event with no [Records] at all. *)
Lemma lambda_handler_no_records_witness :
  lambda_handler (sample_world (store_with ["m1"]) (Responded 200 "OK"))
    (PDict [("source", PStr "test")]) PNone []
  = (Return acknowledgement, [] ++ startup_events).
Proof.
  apply (lambda_handler_no_records
           (sample_world (store_with ["m1"]) (Responded 200 "OK"))
           "https://api.example.com/mail" "inbound-mail");
    [reflexivity | reflexivity | left; reflexivity].
Defined.

(** An event whose [Records] is null. *)
Lemma lambda_handler_bad_event_witness :
  (dict_get (PDict [("Records", PNone)]) "Records" (PList []) = None →
   lambda_handler (sample_world (store_with ["m1"]) (Responded 200 "OK"))
     (PDict [("Records", PNone)]) PNone []
   = (Raise (AttributeError
               ("'" +:+ py_type_name (PDict [("Records", PNone)])
                +:+ "' object has no attribute 'get'")),
      [] ++ startup_events))
  ∧ (∀ records,
       dict_get (PDict [("Records", PNone)]) "Records" (PList []) = Some records →
       not_iterable records = true →
       lambda_handler (sample_world (store_with ["m1"]) (Responded 200 "OK"))
         (PDict [("Records", PNone)]) PNone []
       = (Raise (TypeError
                   ("'" +:+ py_type_name records +:+ "' object is not iterable")),
          [] ++ startup_events)).
Proof.
  apply (lambda_handler_bad_event
           (sample_world (store_with ["m1"]) (Responded 200 "OK"))
           "https://api.example.com/mail" "inbound-mail"); reflexivity.
Defined.

Example lambda_handler_null_records :
  lambda_handler (sample_world (store_with ["m1"]) (Responded 200 "OK"))
    (PDict [("Records", PNone)]) PNone []
  = (Raise (TypeError "'NoneType' object is not iterable"), startup_events).
Proof. vm_compute. reflexivity. Qed.

(** A record whose [ses] is null, between two good ones. *)
Lemma lambda_handler_malformed_record_aborts_witness :
  ∃ obj,
    dict_get obj "" PNone = None
    ∧ lambda_handler (sample_world (store_with ["m1"; "m2"]) (Responded 200 "OK"))
        (batch_event ([ses_record (PStr "m1")] ++ PDict [("ses", PNone)]
                        :: [ses_record (PStr "m2")])) PNone []
      = (Raise (AttributeError
                  ("'" +:+ py_type_name obj +:+ "' object has no attribute 'get'")),
         startup_events
           ++ [GetObject "inbound-mail" "m1";
               Urlopen (post_request sample_forwarder (PStr "m1") sample_mail) 300]).
Proof.
  apply (lambda_handler_malformed_record_aborts
           (sample_world (store_with ["m1"; "m2"]) (Responded 200 "OK"))
           "https://api.example.com/mail" "inbound-mail"
           [ses_record (PStr "m1")] [ses_record (PStr "m2")]
           (PDict [("ses", PNone)]) PNone []); reflexivity.
Defined.

(** A message id that is the number 7: it is true, so it is forwarded. *)
Lemma handle_record_skips_exactly_falsy_witness :
  (py_truthy (PInt 7) = false ↔ PInt 7 ∈ falsy_values)
  ∧ (py_truthy (PInt 7) = false →
     handle_record (sample_world (store_with ["m1"]) (Responded 200 "OK"))
       sample_forwarder (ses_record (PInt 7)) [] = (Return (), []))
  ∧ (py_truthy (PInt 7) = true →
     ∃ r new,
       handle_record (sample_world (store_with ["m1"]) (Responded 200 "OK"))
         sample_forwarder (ses_record (PInt 7)) []
       = (r, [] ++ GetObject (bucket_name sample_forwarder)
                     (fstring (sample_world (store_with ["m1"]) (Responded 200 "OK"))
                        (PInt 7)) :: new)
       ∧ Forall (sent_or_printed sample_forwarder) new).
Proof.
  apply (handle_record_skips_exactly_falsy
           (sample_world (store_with ["m1"]) (Responded 200 "OK"))
           sample_forwarder (ses_record (PInt 7)) (PInt 7) []).
  reflexivity.
Defined.

(** The run over the three sample records, from the empty trace. *)
Lemma lambda_handler_requests_follow_reads_witness :
  requests_follow_reads (sample_world (store_with ["m1"; "m2"]) (Responded 200 "OK"))
    (lambda_handler (sample_world (store_with ["m1"; "m2"]) (Responded 200 "OK"))
       (batch_event sample_records) PNone []).2.
Proof.
  apply (lambda_handler_requests_follow_reads
           (sample_world (store_with ["m1"; "m2"]) (Responded 200 "OK"))
           (batch_event sample_records) PNone []).
  intros before req timeout after Heq. destruct before; discriminate Heq.
Defined.

(** The second object is missing: the run ends on the line for "m2". *)
Lemma lambda_handler_failures_witness :
  (∃ name, ClientError "NoSuchKey" "The specified key does not exist." = KeyError name
         ∧ environ (sample_world (store_with ["m1"]) (Responded 200 "OK")) !! name = None)
  ∨ (∃ msg, ClientError "NoSuchKey" "The specified key does not exist."
            = AttributeError msg
            ∨ ClientError "NoSuchKey" "The specified key does not exist."
              = TypeError msg)
  ∨ (∃ forwarder message_id tr0 before,
       forward_email (sample_world (store_with ["m1"]) (Responded 200 "OK"))
         forwarder message_id tr0
       = (Raise (ClientError "NoSuchKey" "The specified key does not exist."),
          startup_events
            ++ [GetObject "inbound-mail" "m1";
                Urlopen (post_request sample_forwarder (PStr "m1") sample_mail) 300;
                GetObject "inbound-mail" "m2";
                Printed "Error processing message m2: An error occurred (NoSuchKey) when calling the GetObject operation: The specified key does not exist."])
       ∧ startup_events
           ++ [GetObject "inbound-mail" "m1";
               Urlopen (post_request sample_forwarder (PStr "m1") sample_mail) 300;
               GetObject "inbound-mail" "m2";
               Printed "Error processing message m2: An error occurred (NoSuchKey) when calling the GetObject operation: The specified key does not exist."]
         = before
             ++ [Printed (error_line (sample_world (store_with ["m1"]) (Responded 200 "OK"))
                            message_id
                            (ClientError "NoSuchKey" "The specified key does not exist."))]).
Proof.
  apply (lambda_handler_failures
           (sample_world (store_with ["m1"]) (Responded 200 "OK"))
           (batch_event sample_records) PNone
           (ClientError "NoSuchKey" "The specified key does not exist.") []).
  reflexivity.
Defined.

Example number_as_key :
  fstring (sample_world (store_with ["m1"]) (Responded 200 "OK")) (PInt 7) = "7"
  ∧ fstring (sample_world (store_with ["m1"]) (Responded 200 "OK")) (PBool true) = "True"
  ∧ fstring (sample_world (store_with ["m1"]) (Responded 200 "OK"))
      (PDict [("id", PInt (-3)); ("tags", PList [PStr "it's"; PNone])])
    = "{'id': -3, 'tags': [" +:+ String (ascii_of_N 34) "it's"
        +:+ String (ascii_of_N 34) ", None]}".
Proof. split_and!; vm_compute; reflexivity. Qed.

(** * Concrete runs of the handler, continued *)

(** The three sample records, each delivery answered with 202. *)
Lemma lambda_handler_return_delivers_all_witness :
  posted_ids
    (lambda_handler (sample_world (store_with ["m1"; "m2"]) (Responded 202 "Accepted"))
       (batch_event sample_records) PNone []).2
  = posted_ids [] ++ (Some <$> usable_ids sample_records)
  ∧ ∃ statuses,
      printed_lines
        (lambda_handler
           (sample_world (store_with ["m1"; "m2"]) (Responded 202 "Accepted"))
           (batch_event sample_records) PNone []).2
      = printed_lines [] ++ (status_line <$> statuses)
      ∧ Forall reported_status statuses.
Proof.
  apply (lambda_handler_return_delivers_all
           (sample_world (store_with ["m1"; "m2"]) (Responded 202 "Accepted"))
           sample_records PNone acknowledgement []).
  vm_compute. reflexivity.
Defined.

Example sample_records_posted :
  posted_ids
    (lambda_handler (sample_world (store_with ["m1"; "m2"]) (Responded 202 "Accepted"))
       (batch_event sample_records) PNone []).2
  = [Some (PStr "m1"); Some (PStr "m2")]
  ∧ printed_lines
      (lambda_handler (sample_world (store_with ["m1"; "m2"]) (Responded 202 "Accepted"))
         (batch_event sample_records) PNone []).2
    = ["API error status code: 202"; "API error status code: 202"].
Proof. split; vm_compute; reflexivity. Qed.

(** An event that is a list, not an object. *)
Example lambda_handler_list_event :
  lambda_handler (sample_world (store_with ["m1"]) (Responded 200 "OK"))
    (PList [ses_record (PStr "m1")]) PNone []
  = (Raise (AttributeError "'list' object has no attribute 'get'"), startup_events).
Proof. vm_compute. reflexivity. Qed.

(** * Concrete runs of the report script *)

Example sample_entity_row :
  Scirpt.row sample_runtime sample_entity = Some sample_row.
Proof. reflexivity. Qed.

Example shadowed_entity_row :
  Scirpt.row sample_runtime shadowed_entity = Some shadowed_row.
Proof. reflexivity. Qed.

(** The rows come out in the order of [created_at]. *)
Example sample_rows_sorted :
  Scirpt.list_sort sample_runtime (Scirpt.sort_key sample_runtime)
    [sample_row; shadowed_row]
  = Some [shadowed_row; sample_row].
Proof. reflexivity. Qed.

Example sample_headers :
  Scirpt.headers [sample_row; shadowed_row]
  = ["ID/Name"; "created_at"; "state"; "uptime"].
Proof. vm_compute. reflexivity. Qed.

Example sample_table :
  Scirpt.table_data [shadowed_row; sample_row]
    ["ID/Name"; "created_at"; "state"; "uptime"]
  = [[Scirpt.Str "alias"; Scirpt.Datetime (Aware 28399680 540);
      Scirpt.Str "down"; Scirpt.Str ""];
     [Scirpt.Str "svc-a"; Scirpt.Datetime (Aware 28401120 540);
      Scirpt.Str "ok"; Scirpt.Other 3]].
Proof. reflexivity. Qed.

(** A row without [created_at] is sorted by [datetime.min], which cannot be
    compared with a datetime that knows its zone: next to a dated row the
    sort raises, and the script prints nothing; on its own it is printed. *)
Example undated_entity_among_dated :
  Scirpt.script sample_runtime [sample_entity; undated_entity] = None
  ∧ Scirpt.script sample_runtime [undated_entity] = Some "ID/Name | state".
Proof. split; vm_compute; reflexivity. Qed.

(** The row of the first sample entity. *)
Lemma row_columns_witness :
  sample_row.*1
  = "ID/Name" :: filter (λ k, k ≠ "ID/Name") (Scirpt.items sample_entity).*1
  ∧ NoDup sample_row.*1
  ∧ (∃ v rest, sample_row = ("ID/Name", v) :: rest)
  ∧ (∀ k, k ∈ sample_row.*1
          ↔ k = "ID/Name" ∨ k ∈ (Scirpt.items sample_entity).*1)
  ∧ (∀ k v, (k, v) ∈ Scirpt.items sample_entity →
            ∃ v', Scirpt.format_value sample_runtime k v = Some v'
                  ∧ Scirpt.dict_get k sample_row = Some v')
  ∧ ("ID/Name" ∉ (Scirpt.items sample_entity).*1 →
     Scirpt.dict_get "ID/Name" sample_row
     = Some (Scirpt.id_or_name sample_entity)).
Proof.
  apply (row_columns sample_runtime sample_entity).
  - apply (bool_decide_unpack _). vm_compute. exact I.
  - reflexivity.
Defined.

(** The report of the two sample entities. *)
Lemma script_prints_table_witness :
  Scirpt.script sample_runtime [sample_entity; shadowed_entity]
  = Some (Scirpt.tabulate sample_runtime
            (Scirpt.table_data [shadowed_row; sample_row]
               (Scirpt.headers [sample_row; shadowed_row]))
            (Scirpt.headers [sample_row; shadowed_row])
            "grid")
  ∧ length (Scirpt.table_data [shadowed_row; sample_row]
              (Scirpt.headers [sample_row; shadowed_row]))
    = length [sample_entity; shadowed_entity]
  ∧ "ID/Name" ∈ Scirpt.headers [sample_row; shadowed_row].
Proof.
  apply (script_prints_table sample_runtime [sample_entity; shadowed_entity]
           [sample_row; shadowed_row] [shadowed_row; sample_row]);
    [discriminate | reflexivity | reflexivity | apply Permutation_swap].
Defined.
